(** * Surge build tooling: the outbound fetch layer

    A shallow embedding of the retry classifier passed to undici's
    [interceptors.retry], of [calculateRetryAfterHeader], of the
    [ResponseError] class and of [fetchWithLog], followed by the properties
    of the natural-language specification that concern them.

    Conventions of the embedding.
    - JavaScript numbers that occur here (status codes, counters, delays in
      milliseconds) are integers and are modelled as [Z]; the one value
      outside the integers that the code tests for, NaN, is explicit in
      [num].  Rounding of doubles, fractions and infinities are outside the
      model.
    - A property that may be absent from an object is an [option]; a value
      whose JavaScript type the code inspects is a [jsval].
    - The wall clock and the two host parsers the code calls and that are
      not modelled in full ([Date] parsing, [Number] on literals that do not
      denote a decimal integer) are variables of a section. *)

From Stdlib Require Import ZArith Lia List Ascii String Bool.
From stdpp Require Import base option strings gmap.
Import ListNotations.

Local Open Scope Z_scope.

(** ** JavaScript values *)

Inductive jsval : Type :=
  | VUndefined
  | VNull
  | VBool (b : bool)
  | VNum (n : Z)
  | VStr (s : string)
  | VObj (fields : gmap string string).

(** [typeof v]. *)
Definition typeof (v : jsval) : string :=
  match v with
  | VUndefined => "undefined"
  | VNull => "object"
  | VBool _ => "boolean"
  | VNum _ => "number"
  | VStr _ => "string"
  | VObj _ => "object"
  end.

(** [v === s] for a string literal [s]. *)
Definition strict_eq_str (v : jsval) (s : string) : bool :=
  match v with
  | VStr t => String.eqb t s
  | _ => false
  end.

(** [v?.[key]]: [undefined] on [null] and [undefined], the property
    otherwise. *)
Definition optional_member (v : jsval) (key : string) : option string :=
  match v with
  | VObj fields => fields !! key
  | _ => None
  end.

(** A number that may be NaN. *)
Inductive num : Type :=
  | NaN
  | Fin (z : Z).

(** [r > 0]: false on NaN. *)
Definition gt_zero (r : num) : bool :=
  match r with
  | NaN => false
  | Fin z => 0 <? z
  end.

(** [a - b]: NaN is absorbing. *)
Definition num_sub (a : num) (b : Z) : num :=
  match a with
  | NaN => NaN
  | Fin z => Fin (z - b)
  end.

(** ** [Number(string)] on decimal integers

    The string is trimmed of white space; the empty string is [0]; an
    optional sign followed by decimal digits is that integer. *)

Definition is_white_space (c : ascii) : bool :=
  let n := N_of_ascii c in
  ((9 <=? n)%N && (n <=? 13)%N) || (n =? 32)%N.

Fixpoint trim_start (l : list ascii) : list ascii :=
  match l with
  | c :: l' => if is_white_space c then trim_start l' else l
  | [] => []
  end.

Definition trim (l : list ascii) : list ascii :=
  rev (trim_start (rev (trim_start l))).

Definition digit_value (c : ascii) : option Z :=
  let n := N_of_ascii c in
  if ((48 <=? n)%N && (n <=? 57)%N)%bool then Some (Z.of_N (n - 48)) else None.

Fixpoint digits_value (acc : Z) (l : list ascii) : option Z :=
  match l with
  | [] => Some acc
  | c :: l' =>
      match digit_value c with
      | Some d => digits_value (10 * acc + d) l'
      | None => None
      end
  end.

Definition decimal_digits (l : list ascii) : option Z :=
  match l with
  | [] => None
  | _ => digits_value 0 l
  end.

Definition signed_decimal (l : list ascii) : option Z :=
  match l with
  | "+"%char :: l' => decimal_digits l'
  | "-"%char :: l' => Z.opp <$> decimal_digits l'
  | _ => decimal_digits l
  end.

(** ** The data of the retry interceptor *)

(** The error handed to the retry callback: an [Error], so [name] and
    [message] are strings; [code], [statusCode] and [headers] are probed
    with [in] and [typeof]. *)
Module Err.
Record t : Type := mk {
  name : string;
  message : string;
  code : option jsval;
  statusCode : option jsval;
  headers : option jsval
}.
End Err.

(** [retryOptions]: every field optional. *)
Module RetryOptions.
Record t : Type := mk {
  maxRetries : option Z;
  minTimeout : option Z;
  maxTimeout : option Z;
  timeoutFactor : option Z;
  methods : option (list string)
}.

(** The object literal [{}]. *)
Definition empty : t := mk None None None None None.
End RetryOptions.

(** The second argument of the callback: [{ state, opts }]. *)
Record RetryState : Type := { counter : Z }.

Record DispatchOpts : Type := {
  method : string;
  retryOptions : option RetryOptions.t
}.

(** What the callback does with [cb]: [cb(err)] at once, or
    [setTimeout(() => cb(null), retryTimeout)]. *)
Inductive retry_outcome : Type :=
  | CbErr (err : Err.t)
  | CbNullAfter (retryTimeout : Z).

(** The destructuring defaults of lines 54-60. *)
Definition maxRetries_of (o : RetryOptions.t) : Z :=
  default 5 (RetryOptions.maxRetries o).
Definition minTimeout_of (o : RetryOptions.t) : Z :=
  default 500 (RetryOptions.minTimeout o).
Definition maxTimeout_of (o : RetryOptions.t) : Z :=
  default (30 * 1000) (RetryOptions.maxTimeout o).
Definition timeoutFactor_of (o : RetryOptions.t) : Z :=
  default 2 (RetryOptions.timeoutFactor o).
Definition methods_of (o : RetryOptions.t) : list string :=
  default ["GET"; "HEAD"; "OPTIONS"; "PUT"; "DELETE"; "TRACE"]%string
    (RetryOptions.methods o).

(** [const { method, retryOptions = {} } = opts]. *)
Definition retryOptions_of (opts : DispatchOpts) : RetryOptions.t :=
  default RetryOptions.empty (retryOptions opts).

(** [methods.includes(method)]. *)
Definition includes (l : list string) (s : string) : bool :=
  existsb (String.eqb s) l.

(** Lines 33-35: the three probes of the error. *)
Definition statusCode_of (err : Err.t) : option Z :=
  match Err.statusCode err with
  | Some (VNum n) => Some n
  | _ => None
  end.

Definition errorCode_of (err : Err.t) : jsval :=
  default VUndefined (Err.code err).

Definition headers_of (err : Err.t) : jsval :=
  match Err.headers err with
  | Some v => if String.eqb (typeof v) "object" then v else VUndefined
  | None => VUndefined
  end.

(** Lines 73-81. *)
Definition bail_out_status (statusCode : option Z) : bool :=
  match statusCode with
  | None => false
  | Some c => (c =? 401) || (c =? 403) || (c =? 404) || (c =? 405)
  end.

Section Retry.

(** [Date.now()], [new Date(s).getTime()] and [Number] on the strings
    that are not a decimal integer. *)
Context (now : Z) (Date_getTime : string -> num) (Number_ext : string -> num).

Definition Number (s : string) : num :=
  match trim (list_ascii_of_string s) with
  | [] => Fin 0
  | t =>
      match signed_decimal t with
      | Some z => Fin z
      | None => Number_ext s
      end
  end.

(** Lines 109-112. *)
Definition calculateRetryAfterHeader (retryAfter : string) : num :=
  let current := now in
  num_sub (Date_getTime retryAfter) current.

(** Lines 88-91: the assignments under [if (retryAfterHeader)]. *)
Definition retryAfter_value (retryAfterHeader : string) : num :=
  match Number retryAfterHeader with
  | NaN => calculateRetryAfterHeader retryAfterHeader
  | Fin seconds => Fin (seconds * 1000)
  end.

(** Lines 85-92: the value of [retryAfter] when line 94 is reached; the
    empty string is the one falsy header. *)
Definition retryAfter_of (err : Err.t) : num :=
  let retryAfterHeader := optional_member (headers_of err) "retry-after" in
  match retryAfterHeader with
  | None => Fin (-1)
  | Some "" => Fin (-1)
  | Some h => retryAfter_value h
  end.

(** Lines 94-97.  The code computes on doubles; the integers computed
    here are the code's values as long as the power and the product are
    integers of magnitude below [2 ^ 53] ([exact_backoff] below).  Beyond
    that the code rounds, overflows to an infinity, or gets NaN from
    [0 * Infinity]. *)
Definition retryTimeout_of (retryAfter : num) (o : RetryOptions.t) (counter : Z) : Z :=
  match retryAfter with
  | Fin ra =>
      if 0 <? ra then Z.min ra (maxTimeout_of o)
      else Z.min (minTimeout_of o * timeoutFactor_of o ^ (counter - 1)) (maxTimeout_of o)
  | NaN => Z.min (minTimeout_of o * timeoutFactor_of o ^ (counter - 1)) (maxTimeout_of o)
  end.

(** Lines 32-101: the [retry] callback. *)
Definition retry (err : Err.t) (state : RetryState) (opts : DispatchOpts) : retry_outcome :=
  let statusCode := statusCode_of err in
  let errorCode := errorCode_of err in
  let counter := counter state in
  if strict_eq_str errorCode "ERR_UNESCAPED_CHARACTERS"
     || String.eqb (Err.message err) "Request path contains unescaped characters"
     || String.eqb (Err.name err) "AbortError"
  then CbErr err
  else if negb (strict_eq_str errorCode "UND_ERR_REQ_RETRY") then CbErr err
  else
    let method := method opts in
    let retryOptions := retryOptions_of opts in
    if maxRetries_of retryOptions <? counter then CbErr err
    else if negb (includes (methods_of retryOptions) method) then CbErr err
    else if bail_out_status statusCode then CbErr err
    else CbNullAfter (retryTimeout_of (retryAfter_of err) retryOptions counter).

End Retry.

(** The range in which line 97 computes on doubles what [retryTimeout_of]
    computes on integers: the exponent is not negative, and the power and
    its product with [minTimeout] are integers a double holds exactly. *)
Definition exact_backoff (o : RetryOptions.t) (counter : Z) : Prop :=
  1 <= counter
  /\ Z.abs (timeoutFactor_of o ^ (counter - 1)) < 2 ^ 53
  /\ Z.abs (minTimeout_of o * timeoutFactor_of o ^ (counter - 1)) < 2 ^ 53.

(** ** The global dispatcher (lines 25-28 and 104-106) *)

(** The options object given to [interceptors.retry], its [retry] member
    (the callback above) apart. *)
Definition globalRetryOptions : RetryOptions.t :=
  RetryOptions.mk (Some 5) (Some 10000) None None None.

(** [interceptors.redirect({ maxRedirections: 5 })]. *)
Definition maxRedirections : Z := 5.

(** Modelled from the spec: the part of undici's retry interceptor that
    hands the callback its [opts.retryOptions]; undici is a dependency and
    not among the sources.  The spec gives every retry option as optional,
    names the values above "this system's global default" and lets a call
    carry "a per-call retry override": a field of the call wins over the
    global one. *)
Definition mergeRetryOptions (global perCall : RetryOptions.t) : RetryOptions.t :=
  RetryOptions.mk
    (RetryOptions.maxRetries perCall ∪ RetryOptions.maxRetries global)
    (RetryOptions.minTimeout perCall ∪ RetryOptions.minTimeout global)
    (RetryOptions.maxTimeout perCall ∪ RetryOptions.maxTimeout global)
    (RetryOptions.timeoutFactor perCall ∪ RetryOptions.timeoutFactor global)
    (RetryOptions.methods perCall ∪ RetryOptions.methods global).

Definition interceptorOpts (method : string) (perCall : option RetryOptions.t)
    : DispatchOpts :=
  {| method := method;
     retryOptions :=
       Some (mergeRetryOptions globalRetryOptions (default RetryOptions.empty perCall)) |}.

(** One physical attempt of a logical request, as the network decides it. *)
Inductive attempt : Type :=
  | AttemptSucceeds
  | AttemptFails (err : Err.t).

Inductive settlement : Type :=
  | Fulfilled
  | Rejected (err : Err.t)
  | Outstanding.

(** A logical request: how many physical attempts were made, the delays
    waited between them, and how it ended ([Outstanding]: the script of
    attempts ended before the request did). *)
Record run : Type := {
  attempts : nat;
  delays : list Z;
  result : settlement
}.

Section RetryLoop.

Context (now : Z) (Date_getTime : string -> num) (Number_ext : string -> num).

(** Modelled from the spec: the loop of undici's retry handler around the
    callback.  [attemptCount] "starts at 1 on first failure" and is
    "incremented each retry"; the engine "is invoked again on each
    subsequent failure"; a failure the classifier rejects "surfaces as
    the original underlying error". *)
Fixpoint dispatchWithRetry (opts : DispatchOpts) (attemptCount : Z)
    (script : list attempt) : run :=
  match script with
  | [] => {| attempts := 0; delays := []; result := Outstanding |}
  | AttemptSucceeds :: _ => {| attempts := 1; delays := []; result := Fulfilled |}
  | AttemptFails err :: rest =>
      match retry now Date_getTime Number_ext err {| counter := attemptCount |} opts with
      | CbErr e => {| attempts := 1; delays := []; result := Rejected e |}
      | CbNullAfter d =>
          let r := dispatchWithRetry opts (attemptCount + 1) rest in
          {| attempts := S (attempts r); delays := d :: delays r; result := result r |}
      end
  end.

Definition logicalRequest (opts : DispatchOpts) (script : list attempt) : run :=
  dispatchWithRetry opts 1 script.

End RetryLoop.

(** ** [ResponseError] and [fetchWithLog] (lines 114-170) *)

Module Response.
Record t : Type := mk {
  status : Z;
  ok : bool;
  statusText : string;
  url : string
}.
End Response.

Module ResponseError.
Record t : Type := mk {
  message : string;
  name : string;
  res : Response.t;
  code : Z;
  statusCode : Z;
  url : string
}.

(** The constructor: [super(res.statusText)], then the four fields. *)
Definition new (res : Response.t) : t :=
  {| message := Response.statusText res;
     name := "ResponseError";
     res := res;
     code := Response.status res;
     statusCode := Response.status res;
     url := Response.url res |}.
End ResponseError.

Module RequestInit.
Record t : Type := mk {
  method : option string;
  headers : option (gmap string string)
}.
End RequestInit.

Definition defaultRequestInit : RequestInit.t :=
  {| RequestInit.method := None;
     RequestInit.headers :=
       Some {[ "User-Agent" := "curl/8.9.1 (https://github.com/SukkaW/Surge)" ]} |}.

(** What [await fetch(url, opts)] does. *)
Inductive fetch_result : Type :=
  | Resolves (res : Response.t)
  | Rejects (reason : jsval).

(** A thrown value: the [ResponseError] built here, whatever [fetch]
    rejected with, or the [TypeError] of reading a property of [null] or
    [undefined]. *)
Inductive thrown : Type :=
  | TResponseError (e : ResponseError.t)
  | TValue (v : jsval)
  | TTypeError.

Inductive event : Type :=
  | EvFetch (url : string) (opts : RequestInit.t)
  | EvLogAbort (url : string)
  | EvLogFail (url : string) (name : jsval) (err : thrown).

Inductive completion : Type :=
  | Return (res : Response.t)
  | Throw (err : thrown).

(** [typeof err === 'object' && err !== null && 'name' in err], with the
    name when it holds. *)
Definition name_in (err : thrown) : option string :=
  match err with
  | TResponseError e => Some (ResponseError.name e)
  | TValue (VObj fields) => fields !! "name"
  | TValue _ => None
  | TTypeError => Some "TypeError"
  end.

(** ['digest' in err && err.digest === 'AbortError']. *)
Definition digest_is_abort (err : thrown) : bool :=
  match err with
  | TValue (VObj fields) =>
      match fields !! "digest" with
      | Some d => String.eqb d "AbortError"
      | None => false
      end
  | _ => false
  end.

(** Lines 147-155: the rest of the [try] block once [fetch] has resolved. *)
Definition check_response (res : Response.t) : Response.t + thrown :=
  if 400 <=? Response.status res then inr (TResponseError (ResponseError.new res))
  else if negb (Response.ok res) && negb (Response.status res =? 304)
  then inr (TResponseError (ResponseError.new res))
  else inl res.

(** Lines 156-169: the [catch] block, as the log lines written and the
    value thrown out of it.  In the [else] branch [(err as any).name] is
    read before anything is logged: on [null] and [undefined] that read
    throws. *)
Definition catch_block (url : string) (err : thrown) : list event * thrown :=
  match name_in err with
  | Some name =>
      if String.eqb name "AbortError" || digest_is_abort err
      then ([EvLogAbort url], err)
      else ([], err)
  | None =>
      match err with
      | TValue VNull | TValue VUndefined => ([], TTypeError)
      | _ => ([EvLogFail url VUndefined err], err)
      end
  end.

(** The [fetch] calls of a trace, in order. *)
Definition fetch_calls (trace : list event) : list (string * RequestInit.t) :=
  omap (fun ev => match ev with EvFetch url opts => Some (url, opts) | _ => None end) trace.

(** The lines written to the console in a trace. *)
Definition log_lines (trace : list event) : list event :=
  List.filter (fun ev => match ev with EvFetch _ _ => false | _ => true end) trace.

Section Fetch.

Context (fetch : string -> RequestInit.t -> fetch_result).

Definition fetchWithLog (url : string) (opts : option RequestInit.t)
    : list event * completion :=
  let opts := default defaultRequestInit opts in
  let attempt :=
    match fetch url opts with
    | Resolves res => check_response res
    | Rejects reason => inr (TValue reason)
    end in
  match attempt with
  | inl res => ([EvFetch url opts], Return res)
  | inr err =>
      let '(logs, err') := catch_block url err in
      (EvFetch url opts :: logs, Throw err')
  end.

End Fetch.

(** ** Sample inputs *)

Module Sample.

(** A connection-layer retry error carrying a response status and, when
    given, a [retry-after] header. *)
Definition retryError (status : Z) (retryAfter : option string) : Err.t :=
  {| Err.name := "RequestRetryError";
     Err.message := "Request failed";
     Err.code := Some (VStr "UND_ERR_REQ_RETRY");
     Err.statusCode := Some (VNum status);
     Err.headers :=
       Some (VObj (match retryAfter with
                   | Some h => {[ "retry-after" := h ]}
                   | None => ∅
                   end)) |}.

Definition abortError : Err.t :=
  {| Err.name := "AbortError";
     Err.message := "This operation was aborted";
     Err.code := Some (VNum 20);
     Err.statusCode := None;
     Err.headers := None |}.

Definition get : DispatchOpts := {| method := "GET"; retryOptions := None |}.
Definition post : DispatchOpts := {| method := "POST"; retryOptions := None |}.

(** A host on which no date parses and [Number] knows decimal integers
    only, at time 0. *)
Definition noDate : string -> num := fun _ => NaN.
Definition noNumber : string -> num := fun _ => NaN.

Definition listUrl : string := "https://example.com/list.txt".

Definition response (status : Z) (statusText : string) : Response.t :=
  {| Response.status := status;
     Response.ok := (200 <=? status) && (status <=? 299);
     Response.statusText := statusText;
     Response.url := listUrl |}.

End Sample.

(** ** The common build (src/Build/build-common.ts)

    The file crawler, [readFileByLine], [processLine], [domainDeduper],
    [createRuleset], [picocolors] and Node's [path] are collaborators:
    what they return is a variable of the sections below, and a call to
    [createRuleset] is recorded with its arguments.  The [Span] arguments
    only label traces and are left out.  A string is read as its UTF-8
    text; the markers and directory names compared against are ASCII. *)

Definition MAGIC_COMMAND_SKIP : string := "# $ custom_build_script".
Definition MAGIC_COMMAND_TITLE : string := "# $ meta_title ".
Definition MAGIC_COMMAND_DESCRIPTION : string := "# $ meta_description ".

(** [s.startsWith(p)]. *)
Definition startsWith (s p : string) : bool := String.prefix p s.

(** [s.slice(n)] for a length [n]. *)
Fixpoint slice_from (n : nat) (s : string) : string :=
  match n, s with
  | O, _ => s
  | S n', String _ s' => slice_from n' s'
  | S _, EmptyString => EmptyString
  end.

(** [s.slice(0, -n)] for a length [n]: [-0] is [0], so with [n = 0]
    nothing is kept; otherwise the last [n] characters are dropped. *)
Definition slice_to_minus (s : string) (n : nat) : string :=
  match n with
  | O => EmptyString
  | S _ => String.substring 0 (String.length s - n) s
  end.

(** What [readFileByLine(sourcePath)] does: the lines it yields and, when
    it then throws, the value thrown. *)
Record FileRead : Type := {
  yielded : list string;
  failure : option jsval
}.

(** The triple [[title, descriptions, lines]]. *)
Module FileContent.
Record t : Type := mk {
  title : string;
  descriptions : list string;
  lines : list string
}.
End FileContent.

Inductive console : Type :=
  | ConsoleError (args : list string)
  | ConsoleTrace (e : jsval).

(** The promises pushed by [buildCommon], each the call that made it. *)
Inductive task : Type :=
  | TransformDomainset (fullPath relativePath : string)
  | TransformRuleset (fullPath relativePath : string).

(** The arguments of a [createRuleset] call, the span apart. *)
Module CreateRuleset.
Record t : Type := mk {
  title : string;
  description : list string;
  date : Z;
  content : list string;
  type : string;
  surgePath : string;
  clashPath : string
}.
End CreateRuleset.

Section BuildCommon.

(** [String.prototype.trim], [processLine], [path.extname], [path.sep],
    [path.resolve], [picocolors.red], [domainDeduper],
    [SHARED_DESCRIPTION], the three directories and [new Date()]. *)
Context (String_trim : string -> string)
        (processLine : string -> option string)
        (path_extname : string -> string)
        (path_sep : string)
        (path_resolve : string -> string -> string)
        (picocolors_red : string -> string)
        (domainDeduper : list string -> list string)
        (SHARED_DESCRIPTION : list string)
        (sourceDir outputSurgeDir outputClashDir : string)
        (new_Date : Z).

(** Lines 81-84: [const l = processLine(line); if (l)]: [null] and the
    empty string are dropped. *)
Definition processedLine (line : string) : option string :=
  match processLine line with
  | Some EmptyString => None
  | Some l => Some l
  | None => None
  end.

(** Lines 66-85: the [for await] loop over the lines read, with the three
    variables it updates; [None] is [return null]. *)
Fixpoint readLines (input : list string) (title : string)
    (descriptions lines : list string) : option FileContent.t :=
  match input with
  | [] => Some (FileContent.mk title descriptions lines)
  | line :: rest =>
      if startsWith line MAGIC_COMMAND_SKIP then None
      else if startsWith line MAGIC_COMMAND_TITLE then
        readLines rest
          (String_trim (slice_from (String.length MAGIC_COMMAND_TITLE) line))
          descriptions lines
      else if startsWith line MAGIC_COMMAND_DESCRIPTION then
        readLines rest title
          (descriptions
           ++ [String_trim (slice_from (String.length MAGIC_COMMAND_DESCRIPTION) line)])
          lines
      else
        match processedLine line with
        | Some l => readLines rest title descriptions (lines ++ [l])
        | None => readLines rest title descriptions lines
        end
  end.

(** Lines 57-93: [processFile].  A throw of the reader is caught, written
    to the console, and the triple built so far is returned. *)
Definition processFile (sourcePath : string) (file : FileRead)
    : list console * option FileContent.t :=
  match readLines (yielded file) "" [] [] with
  | None => ([], None)
  | Some res =>
      (match failure file with
       | Some e => [ConsoleError ["Error processing"; sourcePath]; ConsoleTrace e]
       | None => []
       end,
       Some res)
  end.

(** Lines 106-113 and 141-148. *)
Definition describe (descriptions : list string) : list string :=
  SHARED_DESCRIPTION
  ++ match descriptions with
     | [] => []
     | _ => EmptyString :: descriptions
     end.

(** Lines 123 and 158: the Clash file of a source file. *)
Definition clashFile (relativePath : string) : string :=
  slice_to_minus relativePath (String.length (path_extname relativePath)) ++ ".txt".

(** Lines 95-127: [transformDomainset]. *)
Definition transformDomainset (sourcePath relativePath : string) (file : FileRead)
    : list console * option CreateRuleset.t :=
  let '(log, res) := processFile sourcePath file in
  match res with
  | None => (log, None)
  | Some res =>
      let deduped := domainDeduper (FileContent.lines res) in
      let description := describe (FileContent.descriptions res) in
      (log,
       Some {| CreateRuleset.title := FileContent.title res;
               CreateRuleset.description := description;
               CreateRuleset.date := new_Date;
               CreateRuleset.content := deduped;
               CreateRuleset.type := "domainset";
               CreateRuleset.surgePath := path_resolve outputSurgeDir relativePath;
               CreateRuleset.clashPath :=
                 path_resolve outputClashDir (clashFile relativePath) |})
  end.

(** Lines 132-161: [transformRuleset]. *)
Definition transformRuleset (sourcePath relativePath : string) (file : FileRead)
    : list console * option CreateRuleset.t :=
  let '(log, res) := processFile sourcePath file in
  match res with
  | None => (log, None)
  | Some res =>
      let description := describe (FileContent.descriptions res) in
      (log,
       Some {| CreateRuleset.title := FileContent.title res;
               CreateRuleset.description := description;
               CreateRuleset.date := new_Date;
               CreateRuleset.content := FileContent.lines res;
               CreateRuleset.type := "ruleset";
               CreateRuleset.surgePath := path_resolve outputSurgeDir relativePath;
               CreateRuleset.clashPath :=
                 path_resolve outputClashDir (clashFile relativePath) |})
  end.

(** Lines 30-52: the loop of [buildCommon] over the crawled paths, with
    the promises pushed and the lines written to the console. *)
Fixpoint crawlLoop (paths : list string) (promises : list task) (log : list console)
    : list task * list console :=
  match paths with
  | [] => (promises, log)
  | relativePath :: rest =>
      let extname := path_extname relativePath in
      if String.eqb extname ".js" || String.eqb extname ".ts" then
        crawlLoop rest promises log
      else
        let fullPath := (sourceDir ++ path_sep ++ relativePath)%string in
        if startsWith relativePath "domainset/" then
          crawlLoop rest (promises ++ [TransformDomainset fullPath relativePath]) log
        else if startsWith relativePath "ip/" || startsWith relativePath "non_ip/" then
          crawlLoop rest (promises ++ [TransformRuleset fullPath relativePath]) log
        else
          crawlLoop rest promises
            (log ++ [ConsoleError
                       [picocolors_red
                          ("[build-comman] Unknown file: " ++ relativePath)]])
  end.

(** Lines 22-55: [buildCommon], given what the crawler found. *)
Definition buildCommon (paths : list string) : list task * list console :=
  crawlLoop paths [] [].

End BuildCommon.

(** The lines of a file that carry a title, a description, or a rule. *)
Definition isTitleLine (line : string) : bool :=
  startsWith line MAGIC_COMMAND_TITLE.
Definition isDescriptionLine (line : string) : bool :=
  startsWith line MAGIC_COMMAND_DESCRIPTION.
Definition isSkipLine (line : string) : bool :=
  startsWith line MAGIC_COMMAND_SKIP.

Module SampleBuild.

Definition trim (s : string) : string := s.
Definition processLine (line : string) : option string :=
  if String.eqb line "" then None else Some line.
Definition extname (p : string) : string := ".conf".
Definition resolve (dir p : string) : string := (dir ++ "/" ++ p)%string.
Definition red (s : string) : string := s.
Definition dedupe (l : list string) : list string := l.
Definition shared : list string := ["License: AGPL 3.0"%string].

Definition cdn : FileRead :=
  {| yielded := ["# $ meta_title CDN"; "# $ meta_description Static hosts";
                 ""; "DOMAIN-SUFFIX,example.com"]%string;
     failure := None |}.

Definition custom : FileRead :=
  {| yielded := ["# $ custom_build_script"; "DOMAIN,example.org"]%string;
     failure := None |}.

(** The call [transformRuleset] makes for [cdn] read from [non_ip/cdn.conf],
    and the one it makes when the path has no extension. *)
Definition cdnRuleset : CreateRuleset.t :=
  {| CreateRuleset.title := "CDN";
     CreateRuleset.description := ["License: AGPL 3.0"; ""; "Static hosts"]%string;
     CreateRuleset.date := 0;
     CreateRuleset.content := ["DOMAIN-SUFFIX,example.com"]%string;
     CreateRuleset.type := "ruleset";
     CreateRuleset.surgePath := "/List/non_ip/cdn.conf";
     CreateRuleset.clashPath := "/Clash/non_ip/cdn.txt" |}.

Definition cdnRulesetNoExtension : CreateRuleset.t :=
  {| CreateRuleset.title := "CDN";
     CreateRuleset.description := ["License: AGPL 3.0"; ""; "Static hosts"]%string;
     CreateRuleset.date := 0;
     CreateRuleset.content := ["DOMAIN-SUFFIX,example.com"]%string;
     CreateRuleset.type := "ruleset";
     CreateRuleset.surgePath := "/List/non_ip/cdn";
     CreateRuleset.clashPath := "/Clash/.txt" |}.

(** A retry error whose [statusCode] is a string. *)
Definition stringStatusError : Err.t :=
  {| Err.name := "RequestRetryError";
     Err.message := "Request failed";
     Err.code := Some (VStr "UND_ERR_REQ_RETRY");
     Err.statusCode := Some (VStr "404");
     Err.headers := None |}.

End SampleBuild.

Module SampleFetch.

(** A server that answers by the [User-Agent] header of the request: 200
    without one, 403 with one. *)
Definition byAgent (url : string) (init : RequestInit.t) : fetch_result :=
  match RequestInit.headers init ≫= (fun h => h !! "User-Agent") with
  | Some _ => Resolves (Sample.response 403 "Forbidden")
  | None => Resolves (Sample.response 200 "OK")
  end.

(** Options of a caller that sets no header. *)
Definition bare : RequestInit.t :=
  {| RequestInit.method := Some "GET"%string; RequestInit.headers := None |}.

End SampleFetch.

(** * Properties *)

(** ** The classifier *)

Section RetryProperties.

Context (now : Z) (Date_getTime : string -> num) (Number_ext : string -> num).

(** Whenever the callback calls [cb] with an error, it is the error it
    was given. *)
Lemma retry_CbErr_original err state opts e :
  retry now Date_getTime Number_ext err state opts = CbErr e -> e = err.
Proof.
  unfold retry.
  repeat match goal with
         | |- context [if ?b then _ else _] => destruct b
         end; congruence.
Qed.

(** A retry is scheduled only past all five checks, and its delay is the
    one of lines 94-97. *)
Lemma retry_CbNullAfter_inv err state opts d :
  retry now Date_getTime Number_ext err state opts = CbNullAfter d ->
  strict_eq_str (errorCode_of err) "ERR_UNESCAPED_CHARACTERS" = false
  /\ String.eqb (Err.message err) "Request path contains unescaped characters" = false
  /\ String.eqb (Err.name err) "AbortError" = false
  /\ strict_eq_str (errorCode_of err) "UND_ERR_REQ_RETRY" = true
  /\ counter state <= maxRetries_of (retryOptions_of opts)
  /\ includes (methods_of (retryOptions_of opts)) (method opts) = true
  /\ bail_out_status (statusCode_of err) = false
  /\ d = retryTimeout_of (retryAfter_of now Date_getTime Number_ext err)
            (retryOptions_of opts) (counter state).
Proof.
  unfold retry.
  destruct (strict_eq_str (errorCode_of err) "ERR_UNESCAPED_CHARACTERS") eqn:E1;
    [discriminate|].
  destruct (String.eqb (Err.message err) _) eqn:E2; [discriminate|].
  destruct (String.eqb (Err.name err) _) eqn:E3; [discriminate|].
  destruct (strict_eq_str (errorCode_of err) "UND_ERR_REQ_RETRY") eqn:E4;
    [|discriminate].
  destruct (maxRetries_of _ <? counter state) eqn:E5; [discriminate|].
  destruct (includes _ _) eqn:E6; [|discriminate].
  destruct (bail_out_status _) eqn:E7; [discriminate|].
  cbn. intros [= <-]. apply Z.ltb_ge in E5. repeat split; auto.
Qed.

(** Conversely, past the five checks the retry is scheduled. *)
Lemma retry_schedules err state opts :
  strict_eq_str (errorCode_of err) "ERR_UNESCAPED_CHARACTERS" = false ->
  String.eqb (Err.message err) "Request path contains unescaped characters" = false ->
  String.eqb (Err.name err) "AbortError" = false ->
  strict_eq_str (errorCode_of err) "UND_ERR_REQ_RETRY" = true ->
  counter state <= maxRetries_of (retryOptions_of opts) ->
  includes (methods_of (retryOptions_of opts)) (method opts) = true ->
  bail_out_status (statusCode_of err) = false ->
  retry now Date_getTime Number_ext err state opts
  = CbNullAfter (retryTimeout_of (retryAfter_of now Date_getTime Number_ext err)
                   (retryOptions_of opts) (counter state)).
Proof.
  intros E1 E2 E3 E4 E5 E6 E7. unfold retry.
  rewrite E1, E2, E3, E4, E6, E7. cbn.
  apply Z.ltb_ge in E5. now rewrite E5.
Qed.

(** The callback always answers: one of the two outcomes, and an error
    outcome carries the error given. *)
Lemma retry_total err state opts :
  retry now Date_getTime Number_ext err state opts = CbErr err
  \/ exists d, retry now Date_getTime Number_ext err state opts = CbNullAfter d.
Proof.
  destruct (retry now Date_getTime Number_ext err state opts) as [e|d] eqn:E;
    [left|right; eauto].
  now rewrite (retry_CbErr_original _ _ _ _ E).
Qed.

(** The loop makes at most one attempt more than the budget left. *)
Lemma dispatchWithRetry_attempts opts script : forall attemptCount,
  Z.of_nat (attempts (dispatchWithRetry now Date_getTime Number_ext opts attemptCount script))
  <= Z.max 0 (maxRetries_of (retryOptions_of opts) - attemptCount + 1) + 1.
Proof.
  induction script as [|a rest IH]; intros c; cbn [dispatchWithRetry].
  - cbn. lia.
  - destruct a as [|err]; [cbn; lia|].
    destruct (retry now Date_getTime Number_ext err {| counter := c |} opts)
      as [e|d] eqn:E; [cbn; lia|].
    apply retry_CbNullAfter_inv in E as (_ & _ & _ & _ & Hc & _).
    cbn in Hc. cbn [attempts]. specialize (IH (c + 1)). lia.
Qed.

(** With a script longer than the budget left, the request settles. *)
Lemma dispatchWithRetry_settles opts script : forall attemptCount,
  Z.max 0 (maxRetries_of (retryOptions_of opts) - attemptCount + 1)
  < Z.of_nat (length script) ->
  result (dispatchWithRetry now Date_getTime Number_ext opts attemptCount script)
  <> Outstanding.
Proof.
  induction script as [|a rest IH]; intros c Hlen; cbn [dispatchWithRetry].
  - cbn in Hlen. lia.
  - destruct a as [|err]; [cbn; discriminate|].
    destruct (retry now Date_getTime Number_ext err {| counter := c |} opts)
      as [e|d] eqn:E; [cbn; discriminate|].
    apply retry_CbNullAfter_inv in E as (_ & _ & _ & _ & Hc & _).
    cbn in Hc. cbn [result]. apply IH. cbn [length] in Hlen. lia.
Qed.

(** A rejected request is rejected with the error of one of its attempts. *)
Lemma dispatchWithRetry_rejects_original opts script : forall attemptCount e,
  result (dispatchWithRetry now Date_getTime Number_ext opts attemptCount script)
  = Rejected e ->
  In (AttemptFails e) script.
Proof.
  induction script as [|a rest IH]; intros c e; cbn [dispatchWithRetry].
  - cbn. discriminate.
  - destruct a as [|err]; [cbn; discriminate|].
    destruct (retry now Date_getTime Number_ext err {| counter := c |} opts)
      as [e'|d] eqn:E; cbn [result].
    + intros [= <-]. apply retry_CbErr_original in E. subst e'. now left.
    + intros H. right. eauto.
Qed.

(** C1. An error whose [statusCode] is the number 401, 403, 404 or 405
    makes the callback call [cb] with that very error and schedule no
    retry, whatever the counter and the options are (so also while the
    counter is within [maxRetries]). *)
Theorem retry_bails_out_on_status err state opts c :
  Err.statusCode err = Some (VNum c) ->
  c = 401 \/ c = 403 \/ c = 404 \/ c = 405 ->
  retry now Date_getTime Number_ext err state opts = CbErr err.
Proof.
  intros Hs Hc.
  destruct (retry_total err state opts) as [H|[d H]]; [exact H|].
  apply retry_CbNullAfter_inv in H as (_ & _ & _ & _ & _ & _ & Hb & _).
  unfold statusCode_of in Hb. rewrite Hs in Hb. cbn in Hb.
  destruct Hc as [-> | [-> | [-> | ->]]]; discriminate.
Qed.

(** C2. An error that is an unescaped-characters error (by code or by
    message), an abort, or whose code is not the string
    [UND_ERR_REQ_RETRY] (a missing code included), makes the callback call
    [cb] with that very error and schedule no retry, whatever the counter
    and the options are. *)
Theorem retry_fails_non_retriable err state opts :
  errorCode_of err = VStr "ERR_UNESCAPED_CHARACTERS"
  \/ Err.message err = "Request path contains unescaped characters"%string
  \/ Err.name err = "AbortError"%string
  \/ errorCode_of err <> VStr "UND_ERR_REQ_RETRY" ->
  retry now Date_getTime Number_ext err state opts = CbErr err.
Proof.
  intros H.
  destruct (retry_total err state opts) as [E|[d E]]; [exact E|].
  apply retry_CbNullAfter_inv in E as (E1 & E2 & E3 & E4 & _).
  destruct H as [H|[H|[H|H]]].
  - rewrite H in E1. discriminate.
  - rewrite H in E2. discriminate.
  - rewrite H in E3. discriminate.
  - exfalso. apply H. destruct (errorCode_of err); try discriminate.
    cbn in E4. apply String.eqb_eq in E4. now subst.
Qed.

Lemma includes_In l m : includes l m = true <-> In m l.
Proof.
  unfold includes. rewrite existsb_exists. split.
  - intros (x & Hx & E). apply String.eqb_eq in E. now subst.
  - intros H. exists m. split; [exact H|apply String.eqb_refl].
Qed.

(** Lines 94-97, by cases. *)
Lemma retryTimeout_of_positive ms o c :
  0 < ms -> retryTimeout_of (Fin ms) o c = Z.min ms (maxTimeout_of o).
Proof. intros H. cbn. apply Z.ltb_lt in H. now rewrite H. Qed.

Lemma retryTimeout_of_backoff ra o c :
  gt_zero ra = false ->
  retryTimeout_of ra o c
  = Z.min (minTimeout_of o * timeoutFactor_of o ^ (c - 1)) (maxTimeout_of o).
Proof. destruct ra as [|z]; cbn; [reflexivity|]. now intros ->. Qed.

(** With a header present, [retryAfter] is positive exactly when the
    value of lines 88-91 is, and then it is that value. *)
Lemma retryAfter_of_header err h ms :
  optional_member (headers_of err) "retry-after" = Some h ->
  retryAfter_value now Date_getTime Number_ext h = Fin ms -> 0 < ms ->
  retryAfter_of now Date_getTime Number_ext err = Fin ms.
Proof.
  intros Hh Hv Hms. unfold retryAfter_of. rewrite Hh.
  destruct h as [|a h']; [|exact Hv].
  cbv in Hv. injection Hv as <-. lia.
Qed.

Lemma retryAfter_of_no_header err :
  optional_member (headers_of err) "retry-after" = None ->
  gt_zero (retryAfter_of now Date_getTime Number_ext err) = false.
Proof. intros H. unfold retryAfter_of. now rewrite H. Qed.

(** C3. Once the counter exceeds [maxRetries] (5 when not given) the
    callback schedules nothing and calls [cb] with the error it was given;
    hence a logical request, whose counter is 1 at its first failure and
    grows by one with each retry, makes at most [maxRetries + 1] physical
    attempts, [maxRetries] being a count (not negative). *)
Theorem retry_budget :
  maxRetries_of RetryOptions.empty = 5
  /\ (forall err state opts,
        maxRetries_of (retryOptions_of opts) < counter state ->
        retry now Date_getTime Number_ext err state opts = CbErr err)
  /\ (forall opts script,
        0 <= maxRetries_of (retryOptions_of opts) ->
        Z.of_nat (attempts (logicalRequest now Date_getTime Number_ext opts script))
        <= maxRetries_of (retryOptions_of opts) + 1).
Proof.
  split; [reflexivity|]. split.
  - intros err state opts H.
    destruct (retry_total err state opts) as [E|[d E]]; [exact E|].
    apply retry_CbNullAfter_inv in E as (_ & _ & _ & _ & Hc & _). lia.
  - intros opts script H. unfold logicalRequest.
    pose proof (dispatchWithRetry_attempts opts script 1). lia.
Qed.

(** C7. When the request's method is not in the configured [methods]
    (GET, HEAD, OPTIONS, PUT, DELETE, TRACE when not given), the callback
    calls [cb] with the error it was given; a logical request whose first
    attempt fails is then rejected with that error after one attempt and
    no retry. *)
Theorem retry_method_not_listed err state opts :
  ~ In (method opts) (methods_of (retryOptions_of opts)) ->
  methods_of RetryOptions.empty
    = ["GET"; "HEAD"; "OPTIONS"; "PUT"; "DELETE"; "TRACE"]%string
  /\ retry now Date_getTime Number_ext err state opts = CbErr err
  /\ forall rest,
       logicalRequest now Date_getTime Number_ext opts (AttemptFails err :: rest)
       = {| attempts := 1; delays := []; result := Rejected err |}.
Proof.
  intros H.
  assert (E : forall st, retry now Date_getTime Number_ext err st opts = CbErr err).
  { intros st. destruct (retry_total err st opts) as [E|[d E]]; [exact E|].
    apply retry_CbNullAfter_inv in E as (_ & _ & _ & _ & _ & Hm & _).
    apply includes_In in Hm. contradiction. }
  split; [reflexivity|]. split; [apply E|].
  intros rest. unfold logicalRequest. cbn [dispatchWithRetry]. now rewrite E.
Qed.

(** C4. For a retried attempt whose error carries a [retry-after] header
    [h]: when [Number h] is a number it counts seconds and is multiplied
    by 1000; when it is NaN, [h] is parsed as a date and the value is that
    date minus the current time; a positive value is the delay, capped at
    [maxTimeout].  With the header [2] the delay is [min 2000 maxTimeout],
    which is 2000 under the default [maxTimeout]. *)
Theorem retry_after_delay err state opts h d :
  optional_member (headers_of err) "retry-after" = Some h ->
  retry now Date_getTime Number_ext err state opts = CbNullAfter d ->
  (forall seconds, Number Number_ext h = Fin seconds -> 0 < seconds * 1000 ->
     d = Z.min (seconds * 1000) (maxTimeout_of (retryOptions_of opts)))
  /\ (forall date, Number Number_ext h = NaN -> Date_getTime h = Fin date ->
       0 < date - now ->
       d = Z.min (date - now) (maxTimeout_of (retryOptions_of opts)))
  /\ (h = "2"%string ->
       d = Z.min 2000 (maxTimeout_of (retryOptions_of opts))
       /\ (RetryOptions.maxTimeout (retryOptions_of opts) = None -> d = 2000)).
Proof.
  intros Hh E.
  apply retry_CbNullAfter_inv in E as (_ & _ & _ & _ & _ & _ & _ & ->).
  assert (Hpos : forall ms,
             retryAfter_value now Date_getTime Number_ext h = Fin ms -> 0 < ms ->
             retryTimeout_of (retryAfter_of now Date_getTime Number_ext err)
               (retryOptions_of opts) (counter state)
             = Z.min ms (maxTimeout_of (retryOptions_of opts))).
  { intros ms Hv Hms. rewrite (retryAfter_of_header err h ms Hh Hv Hms).
    now apply retryTimeout_of_positive. }
  split; [|split].
  - intros seconds HN Hs. apply Hpos; [|exact Hs].
    unfold retryAfter_value. now rewrite HN.
  - intros date HN HD Hs. apply Hpos; [|exact Hs].
    unfold retryAfter_value, calculateRetryAfterHeader. now rewrite HN, HD.
  - intros ->.
    assert (E2 : retryTimeout_of (retryAfter_of now Date_getTime Number_ext err)
                   (retryOptions_of opts) (counter state)
                 = Z.min 2000 (maxTimeout_of (retryOptions_of opts))).
    { apply Hpos; [reflexivity|lia]. }
    split; [exact E2|].
    intros Hnone. rewrite E2. unfold maxTimeout_of. rewrite Hnone. reflexivity.
Qed.


(** C6. The callback's own default for [minTimeout] is 500; the options
    given to the global dispatcher set it to 10000, so for a request with
    no per-call [retryOptions] the callback sees 10000 and backs off by
    [min (10000 * 2 ^ (counter - 1)) 30000]. *)
Theorem minTimeout_global_default :
  minTimeout_of RetryOptions.empty = 500
  /\ RetryOptions.minTimeout globalRetryOptions = Some 10000
  /\ (forall method, minTimeout_of (retryOptions_of (interceptorOpts method None)) = 10000)
  /\ (forall err state method d,
        1 <= counter state ->
        gt_zero (retryAfter_of now Date_getTime Number_ext err) = false ->
        retry now Date_getTime Number_ext err state (interceptorOpts method None) = CbNullAfter d ->
        d = Z.min (10000 * 2 ^ (counter state - 1)) 30000).
Proof.
  repeat split.
  intros err state method d Hc Hra E.
  apply retry_CbNullAfter_inv in E as (_ & _ & _ & _ & _ & _ & _ & ->).
  now rewrite (retryTimeout_of_backoff _ _ _ Hra).
Qed.

End RetryProperties.

(** ** [fetchWithLog] *)

Section FetchProperties.

Context (fetch : string -> RequestInit.t -> fetch_result).

(** The [try] block's checks, as a proposition. *)
Lemma check_response_spec res :
  (400 <= Response.status res
   \/ (Response.ok res = false /\ Response.status res <> 304)
   -> check_response res = inr (TResponseError (ResponseError.new res)))
  /\ (~ (400 <= Response.status res
         \/ (Response.ok res = false /\ Response.status res <> 304))
      -> check_response res = inl res).
Proof.
  unfold check_response.
  destruct (400 <=? Response.status res) eqn:E1.
  - apply Z.leb_le in E1. split; [reflexivity|]. intros H. exfalso. apply H. now left.
  - apply Z.leb_gt in E1.
    destruct (Response.ok res) eqn:E2; cbn [negb andb].
    + split; [|reflexivity]. intros [H|[H _]]; [lia|discriminate].
    + destruct (Response.status res =? 304) eqn:E3; cbn [negb].
      * apply Z.eqb_eq in E3. split; [|reflexivity].
        intros [H|[_ H]]; [lia|contradiction].
      * apply Z.eqb_neq in E3. split; [reflexivity|].
        intros H. exfalso. apply H. right. now split.
Qed.

(** A [ResponseError] passes through the [catch] block unchanged, and
    nothing is written for it. *)
Lemma catch_block_ResponseError url res :
  catch_block url (TResponseError (ResponseError.new res))
  = ([], TResponseError (ResponseError.new res)).
Proof. reflexivity. Qed.

(** The [catch] block throws what it caught, unless that is [null] or
    [undefined]. *)
Lemma catch_block_rethrows url err :
  err <> TValue VNull -> err <> TValue VUndefined ->
  snd (catch_block url err) = err.
Proof.
  intros H1 H2. unfold catch_block.
  destruct (name_in err) as [n|].
  - now destruct (String.eqb n "AbortError" || digest_is_abort err).
  - destruct err as [e|v|]; try reflexivity.
    destruct v; try reflexivity; contradiction.
Qed.

(** A thrown value named [AbortError] is logged as an abort. *)
Lemma catch_block_abort url err :
  name_in err = Some "AbortError"%string ->
  catch_block url err = ([EvLogAbort url], err).
Proof. intros H. unfold catch_block. now rewrite H. Qed.

(** A thrown value with any other name, and no abort digest, is not
    logged at all. *)
Lemma catch_block_named_silent url err n :
  name_in err = Some n -> n <> "AbortError"%string -> digest_is_abort err = false ->
  catch_block url err = ([], err).
Proof.
  intros H Hn Hd. unfold catch_block. rewrite H, Hd.
  apply String.eqb_neq in Hn. now rewrite Hn.
Qed.

(** [fetchWithLog] returns only a response that [fetch] resolved with and
    that passed the checks: no failure is turned into a result. *)
Lemma fetchWithLog_Return_inv url opts res :
  snd (fetchWithLog fetch url opts) = Return res ->
  fetch url (default defaultRequestInit opts) = Resolves res
  /\ check_response res = inl res.
Proof.
  unfold fetchWithLog.
  destruct (fetch url (default defaultRequestInit opts)) as [r|reason].
  - destruct (check_response r) as [r'|err] eqn:E.
    + cbn [snd]. intros [= ->].
      assert (r = res); [|now subst].
      unfold check_response in E.
      destruct (400 <=? Response.status r); [discriminate|].
      destruct (negb (Response.ok r) && negb (Response.status r =? 304));
        [discriminate|congruence].
    + destruct (catch_block url err). discriminate.
  - destruct (catch_block url (TValue reason)). discriminate.
Qed.

(** What [fetch] rejects with is thrown on as it is, [null] and
    [undefined] apart. *)
Lemma fetchWithLog_rejection url opts reason :
  fetch url (default defaultRequestInit opts) = Rejects reason ->
  reason <> VNull -> reason <> VUndefined ->
  snd (fetchWithLog fetch url opts) = Throw (TValue reason).
Proof.
  intros Hf H1 H2. unfold fetchWithLog. rewrite Hf.
  pose proof (catch_block_rethrows url (TValue reason)) as H.
  destruct (catch_block url (TValue reason)) as [logs err'].
  cbn [snd] in *. rewrite H; congruence.
Qed.

(** A response that fails the checks is thrown as a [ResponseError] and
    no line is written for it. *)
Lemma fetchWithLog_ResponseError_silent url opts res :
  fetch url (default defaultRequestInit opts) = Resolves res ->
  check_response res = inr (TResponseError (ResponseError.new res)) ->
  fetchWithLog fetch url opts
  = ([EvFetch url (default defaultRequestInit opts)],
     Throw (TResponseError (ResponseError.new res))).
Proof. intros Hf Hc. unfold fetchWithLog. now rewrite Hf, Hc. Qed.

(** C8. Once [fetch] has resolved with a response, [fetchWithLog] throws
    a [ResponseError] exactly when the status is at least 400 or the
    response is not ok with a status other than 304, and returns the
    response otherwise; the error thrown has the response's status as
    [code] and as [statusCode], its URL, and its status text as message. *)
Theorem fetchWithLog_response url opts res :
  fetch url (default defaultRequestInit opts) = Resolves res ->
  ((exists e, snd (fetchWithLog fetch url opts) = Throw (TResponseError e))
   <-> (400 <= Response.status res
        \/ (Response.ok res = false /\ Response.status res <> 304)))
  /\ (~ (400 <= Response.status res
         \/ (Response.ok res = false /\ Response.status res <> 304))
      -> snd (fetchWithLog fetch url opts) = Return res)
  /\ (forall e, snd (fetchWithLog fetch url opts) = Throw (TResponseError e) ->
        ResponseError.code e = Response.status res
        /\ ResponseError.statusCode e = Response.status res
        /\ ResponseError.url e = Response.url res
        /\ ResponseError.message e = Response.statusText res
        /\ ResponseError.res e = res).
Proof.
  intros Hf. unfold fetchWithLog. rewrite Hf.
  destruct (check_response_spec res) as [Hbad Hgood].
  destruct (check_response res) as [r|err] eqn:E.
  - assert (Hn : ~ (400 <= Response.status res
                    \/ (Response.ok res = false /\ Response.status res <> 304))).
    { intros H. specialize (Hbad H). discriminate. }
    specialize (Hgood Hn). injection Hgood as ->. cbn [snd].
    split; [split|split].
    + intros [e He]. discriminate.
    + intros H. contradiction.
    + reflexivity.
    + intros e He. discriminate.
  - assert (Hy : 400 <= Response.status res
                 \/ (Response.ok res = false /\ Response.status res <> 304)).
    { destruct (Z.le_gt_cases 400 (Response.status res)) as [H|H]; [now left|].
      destruct (Response.ok res) eqn:Eo.
      - assert (Hn : ~ (400 <= Response.status res
                        \/ (true = false /\ Response.status res <> 304)))
          by (intros [H'|[H' _]]; [lia|discriminate]).
        specialize (Hgood Hn). discriminate.
      - destruct (Z.eq_dec (Response.status res) 304) as [H3|H3]; [|now right].
        assert (Hn : ~ (400 <= Response.status res
                        \/ (false = false /\ Response.status res <> 304)))
          by (intros [H'|[_ H']]; [lia|contradiction]).
        specialize (Hgood Hn). discriminate. }
    specialize (Hbad Hy). injection Hbad as ->.
    rewrite catch_block_ResponseError. cbn [snd].
    split; [split|split].
    + intros _. exact Hy.
    + intros _. eauto.
    + intros Hn. contradiction.
    + intros e [= <-]. repeat split.
Qed.

(** C10. The options given by the caller are what [fetch] is called
    with, as they are: the outcome is the one [fetch] decides at the
    caller's options and at nothing else, so nothing of
    [defaultRequestInit] is added to them.  [defaultRequestInit], with its
    [User-Agent], is what [fetch] is called with only when the argument is
    omitted. *)
Theorem fetchWithLog_options url :
  (forall opts, fetch_calls (fst (fetchWithLog fetch url (Some opts))) = [(url, opts)])
  /\ fetch_calls (fst (fetchWithLog fetch url None)) = [(url, defaultRequestInit)]
  /\ RequestInit.headers defaultRequestInit
     = Some {[ "User-Agent" := "curl/8.9.1 (https://github.com/SukkaW/Surge)" ]}
  /\ (forall opts,
        fetchWithLog fetch url (Some opts)
        = fetchWithLog (fun _ _ => fetch url opts) url (Some opts))
  /\ fetchWithLog fetch url None
     = fetchWithLog (fun _ _ => fetch url defaultRequestInit) url None
  /\ (forall opts res,
        fetch url opts = Resolves res ->
        check_response res = inl res ->
        fetchWithLog fetch url (Some opts) = ([EvFetch url opts], Return res))
  /\ (forall res,
        fetch url defaultRequestInit = Resolves res ->
        check_response res = inl res ->
        fetchWithLog fetch url None = ([EvFetch url defaultRequestInit], Return res))
  /\ (forall opts reason,
        fetch url opts = Rejects reason ->
        reason <> VNull -> reason <> VUndefined ->
        snd (fetchWithLog fetch url (Some opts)) = Throw (TValue reason)).
Proof.
  assert (H : forall o, fetch_calls (fst (fetchWithLog fetch url o))
                        = [(url, default defaultRequestInit o)]).
  { intros o. unfold fetchWithLog.
    destruct (fetch url (default defaultRequestInit o)) as [res|reason].
    - destruct (check_response res) as [r|err]; [reflexivity|].
      unfold catch_block. destruct (name_in err) as [n|].
      + now destruct (String.eqb n "AbortError" || digest_is_abort err).
      + destruct err as [e|v|]; try reflexivity. now destruct v.
    - unfold catch_block. destruct (name_in (TValue reason)) as [n|].
      + now destruct (String.eqb n "AbortError" || digest_is_abort (TValue reason)).
      + now destruct reason. }
  assert (Hres : forall o res,
             fetch url (default defaultRequestInit o) = Resolves res ->
             check_response res = inl res ->
             fetchWithLog fetch url o
             = ([EvFetch url (default defaultRequestInit o)], Return res)).
  { intros o res Hf Hc. unfold fetchWithLog. now rewrite Hf, Hc. }
  split; [intros opts; apply H|]. split; [apply H|]. split; [reflexivity|].
  split; [intros opts; reflexivity|]. split; [reflexivity|].
  split; [intros opts res; apply (Hres (Some opts))|].
  split; [intros res; apply (Hres None)|].
  intros opts reason Hf H1 H2.
  now apply (fetchWithLog_rejection url (Some opts)).
Qed.

End FetchProperties.

(** C9. A response with status 500 makes [fetchWithLog] throw a
    [ResponseError] after the [fetch] call alone: the trace holds no log
    line, the error having a [name] that is not [AbortError]. *)
Theorem fetchWithLog_status_500_not_logged :
  fetchWithLog (fun _ _ => Resolves (Sample.response 500 "Internal Server Error"))
    Sample.listUrl None
  = ([EvFetch Sample.listUrl defaultRequestInit],
     Throw (TResponseError
              (ResponseError.new (Sample.response 500 "Internal Server Error")))).
Proof. reflexivity. Qed.

(** An abort, by contrast, is logged as one and thrown on. *)
Example fetchWithLog_abort_logged :
  fetchWithLog (fun _ _ => Rejects (VObj {[ "name" := "AbortError" ]}))
    Sample.listUrl None
  = ([EvFetch Sample.listUrl defaultRequestInit; EvLogAbort Sample.listUrl],
     Throw (TValue (VObj {[ "name" := "AbortError" ]}))).
Proof. reflexivity. Qed.

(** Only a thrown value without a [name] reaches the [fetch fail] line. *)
Example fetchWithLog_nameless_logged :
  fetchWithLog (fun _ _ => Rejects (VStr "boom")) Sample.listUrl None
  = ([EvFetch Sample.listUrl defaultRequestInit;
      EvLogFail Sample.listUrl VUndefined (TValue (VStr "boom"))],
     Throw (TValue (VStr "boom"))).
Proof. reflexivity. Qed.

(** A date five seconds ahead gives a delay of 5000. *)
Example retry_after_http_date :
  retry 1000 (fun _ => Fin 6000) Sample.noNumber
    (Sample.retryError 503 (Some "Wed, 21 Oct 2015 07:28:00 GMT")) {| counter := 1 |}
    Sample.get
  = CbNullAfter 5000.
Proof. reflexivity. Qed.

(** Under the global options a request whose every attempt fails makes six
    attempts, with the delays of the backoff schedule. *)
Example logicalRequest_exhausts_budget :
  logicalRequest 0 Sample.noDate Sample.noNumber (interceptorOpts "GET" None)
    (repeat (AttemptFails (Sample.retryError 503 None)) 10)
  = {| attempts := 6;
       delays := [10000; 20000; 30000; 30000; 30000];
       result := Rejected (Sample.retryError 503 None) |}.
Proof. reflexivity. Qed.

(** ** Instances

    Each theorem above that has hypotheses, applied to a sample input on
    which they hold. *)

Lemma retry_bails_out_on_status_witness :
  retry 0 Sample.noDate Sample.noNumber
    (Sample.retryError 404 None) {| counter := 1 |} Sample.get
  = CbErr (Sample.retryError 404 None).
Proof.
  apply (retry_bails_out_on_status 0 Sample.noDate Sample.noNumber
           (Sample.retryError 404 None) {| counter := 1 |} Sample.get 404).
  - reflexivity.
  - right; right; left; reflexivity.
Defined.

Lemma retry_fails_non_retriable_witness :
  retry 0 Sample.noDate Sample.noNumber Sample.abortError {| counter := 1 |} Sample.get
  = CbErr Sample.abortError.
Proof.
  apply (retry_fails_non_retriable 0 Sample.noDate Sample.noNumber
           Sample.abortError {| counter := 1 |} Sample.get).
  right; right; left; reflexivity.
Defined.

Lemma retry_budget_witness :
  retry 0 Sample.noDate Sample.noNumber
    (Sample.retryError 503 None) {| counter := 6 |} Sample.get
  = CbErr (Sample.retryError 503 None)
  /\ Z.of_nat (attempts (logicalRequest 0 Sample.noDate Sample.noNumber Sample.get
                           (repeat (AttemptFails (Sample.retryError 503 None)) 10)))
     <= 5 + 1.
Proof.
  destruct (retry_budget 0 Sample.noDate Sample.noNumber) as (_ & Hfail & Hmost).
  split.
  - apply Hfail. cbn. lia.
  - apply (Hmost Sample.get). cbn. lia.
Defined.

Lemma retry_after_delay_witness :
  optional_member (headers_of (Sample.retryError 503 (Some "2"))) "retry-after"
  = Some "2"%string
  /\ retry 0 Sample.noDate Sample.noNumber
       (Sample.retryError 503 (Some "2")) {| counter := 1 |} Sample.get
     = CbNullAfter 2000
  /\ 2000 = Z.min 2000 (maxTimeout_of (retryOptions_of Sample.get)).
Proof.
  split; [reflexivity|]. split; [reflexivity|].
  destruct (retry_after_delay 0 Sample.noDate Sample.noNumber
              (Sample.retryError 503 (Some "2")) {| counter := 1 |} Sample.get "2" 2000
              eq_refl eq_refl) as (_ & _ & H).
  exact (proj1 (H eq_refl)).
Defined.


Lemma minTimeout_global_default_witness :
  retry 0 Sample.noDate Sample.noNumber
    (Sample.retryError 503 None) {| counter := 1 |} (interceptorOpts "GET" None)
  = CbNullAfter 10000
  /\ 10000 = Z.min (10000 * 2 ^ (1 - 1)) 30000.
Proof.
  split; [reflexivity|].
  destruct (minTimeout_global_default 0 Sample.noDate Sample.noNumber) as (_ & _ & _ & H).
  apply (H (Sample.retryError 503 None) {| counter := 1 |} "GET"%string 10000).
  - cbn. lia.
  - reflexivity.
  - reflexivity.
Defined.

Lemma retry_method_not_listed_witness :
  retry 0 Sample.noDate Sample.noNumber
    (Sample.retryError 503 None) {| counter := 1 |} Sample.post
  = CbErr (Sample.retryError 503 None).
Proof.
  assert (Hm : ~ In (method Sample.post) (methods_of (retryOptions_of Sample.post))).
  { cbn. intros H. repeat (destruct H as [H|H]; [discriminate H|]). exact H. }
  exact (proj1 (proj2 (retry_method_not_listed 0 Sample.noDate Sample.noNumber
                         (Sample.retryError 503 None) {| counter := 1 |} Sample.post Hm))).
Defined.

Lemma fetchWithLog_response_witness :
  snd (fetchWithLog (fun _ _ => Resolves (Sample.response 304 "Not Modified"))
         Sample.listUrl None)
  = Return (Sample.response 304 "Not Modified").
Proof.
  destruct (fetchWithLog_response (fun _ _ => Resolves (Sample.response 304 "Not Modified"))
              Sample.listUrl None (Sample.response 304 "Not Modified") eq_refl)
    as (_ & H & _).
  apply H. cbn. intros [H'|[_ H']]; [lia|now apply H'].
Defined.

(** * Further properties of the retry callback *)

Section RetryFurther.

Context (now : Z) (Date_getTime : string -> num) (Number_ext : string -> num).


(** X2. A scheduled delay never exceeds [maxTimeout], whatever the
    header and the clock are, when the delay comes from a positive
    Retry-After value or the backoff is within the range the code computes
    exactly. *)
Theorem retry_delay_capped err state opts d :
  gt_zero (retryAfter_of now Date_getTime Number_ext err) = true
  \/ exact_backoff (retryOptions_of opts) (counter state) ->
  retry now Date_getTime Number_ext err state opts = CbNullAfter d ->
  d <= maxTimeout_of (retryOptions_of opts).
Proof.
  intros _ E. apply retry_CbNullAfter_inv in E as (_ & _ & _ & _ & _ & _ & _ & ->).
  unfold retryTimeout_of.
  destruct (retryAfter_of now Date_getTime Number_ext err) as [|ra];
    [|destruct (0 <? ra)]; apply Z.le_min_r.
Qed.

(** X3. With options that are not negative, a scheduled delay is not
    negative, when it comes from a positive Retry-After value or the
    backoff is within the range the code computes exactly. *)
Theorem retry_delay_nonneg err state opts d :
  0 <= minTimeout_of (retryOptions_of opts) ->
  0 <= timeoutFactor_of (retryOptions_of opts) ->
  0 <= maxTimeout_of (retryOptions_of opts) ->
  gt_zero (retryAfter_of now Date_getTime Number_ext err) = true
  \/ exact_backoff (retryOptions_of opts) (counter state) ->
  retry now Date_getTime Number_ext err state opts = CbNullAfter d ->
  0 <= d.
Proof.
  intros Hm Hf HM _ E.
  apply retry_CbNullAfter_inv in E as (_ & _ & _ & _ & _ & _ & _ & ->).
  assert (Hb : 0 <= Z.min (minTimeout_of (retryOptions_of opts)
                           * timeoutFactor_of (retryOptions_of opts) ^ (counter state - 1))
                          (maxTimeout_of (retryOptions_of opts))).
  { apply Z.min_glb; [|exact HM].
    apply Z.mul_nonneg_nonneg; [exact Hm|]. apply Z.pow_nonneg. exact Hf. }
  unfold retryTimeout_of.
  destruct (retryAfter_of now Date_getTime Number_ext err) as [|ra]; [exact Hb|].
  destruct (0 <? ra) eqn:Hra; [|exact Hb].
  apply Z.ltb_lt in Hra. apply Z.min_glb; lia.
Qed.

(** X4. Two failures of one request at times [now] and [now'], neither
    with a positive Retry-After value, under one set of options with
    [minTimeout] not negative, [timeoutFactor] at least 1 and both backoffs
    within the range the code computes exactly: the failure with the
    larger counter never waits less. *)
Theorem retry_delay_monotone now' err err' opts state1 state2 d1 d2 :
  0 <= minTimeout_of (retryOptions_of opts) ->
  1 <= timeoutFactor_of (retryOptions_of opts) ->
  counter state1 <= counter state2 ->
  exact_backoff (retryOptions_of opts) (counter state1) ->
  exact_backoff (retryOptions_of opts) (counter state2) ->
  gt_zero (retryAfter_of now Date_getTime Number_ext err) = false ->
  gt_zero (retryAfter_of now' Date_getTime Number_ext err') = false ->
  retry now Date_getTime Number_ext err state1 opts = CbNullAfter d1 ->
  retry now' Date_getTime Number_ext err' state2 opts = CbNullAfter d2 ->
  d1 <= d2.
Proof.
  intros Hm Hf H12 (H1 & _) _ Hra Hra' E1 E2.
  apply retry_CbNullAfter_inv in E1 as (_ & _ & _ & _ & _ & _ & _ & ->).
  apply retry_CbNullAfter_inv in E2 as (_ & _ & _ & _ & _ & _ & _ & ->).
  rewrite (retryTimeout_of_backoff _ _ _ Hra), (retryTimeout_of_backoff _ _ _ Hra').
  apply Z.min_le_compat_r. apply Z.mul_le_mono_nonneg_l; [exact Hm|].
  apply Z.pow_le_mono_r; lia.
Qed.

(** X5. Whether a retry is scheduled depends neither on the error's
    headers nor on the clock and the parsers: they bear on the delay alone. *)
Theorem retry_decision_ignores_headers now' Date_getTime' Number_ext' err err' state opts :
  Err.name err' = Err.name err ->
  Err.message err' = Err.message err ->
  Err.code err' = Err.code err ->
  Err.statusCode err' = Err.statusCode err ->
  (exists d, retry now Date_getTime Number_ext err state opts = CbNullAfter d)
  <-> (exists d', retry now' Date_getTime' Number_ext' err' state opts = CbNullAfter d').
Proof.
  intros Hn Hm Hc Hs.
  assert (Hec : errorCode_of err' = errorCode_of err)
    by (unfold errorCode_of; now rewrite Hc).
  assert (Hsc : statusCode_of err' = statusCode_of err)
    by (unfold statusCode_of; now rewrite Hs).
  split; intros [d E];
    apply retry_CbNullAfter_inv in E as (E1 & E2 & E3 & E4 & E5 & E6 & E7 & _);
    eexists; apply retry_schedules; congruence.
Qed.

(** X6. A [statusCode] that is not a number, the string [404] for one, is
    as good as none: the error is retried, with the same delay, exactly
    when the error without a status code is. *)
Theorem retry_status_must_be_number err state opts v d :
  Err.statusCode err = Some v ->
  (forall n, v <> VNum n) ->
  retry now Date_getTime Number_ext err state opts = CbNullAfter d
  <-> retry now Date_getTime Number_ext
        (Err.mk (Err.name err) (Err.message err) (Err.code err) None (Err.headers err))
        state opts = CbNullAfter d.
Proof.
  intros Hs Hv.
  assert (Hsc : statusCode_of err = None).
  { unfold statusCode_of. rewrite Hs. destruct v; try reflexivity.
    now destruct (Hv n). }
  split; intros E;
    apply retry_CbNullAfter_inv in E as (E1 & E2 & E3 & E4 & E5 & E6 & E7 & ->).
  - rewrite retry_schedules; try assumption; reflexivity.
  - rewrite retry_schedules; try assumption; [reflexivity|]. now rewrite Hsc.
Qed.

End RetryFurther.

(** * Further properties of [fetchWithLog] *)

Section FetchFurther.

Context (fetch : string -> RequestInit.t -> fetch_result).

(** X7. A response that [fetchWithLog] returns is the one [fetch] resolved
    with, its status is below 400, and it is ok or a 304. *)
Theorem fetchWithLog_returns_success_only url opts res :
  snd (fetchWithLog fetch url opts) = Return res ->
  fetch url (default defaultRequestInit opts) = Resolves res
  /\ Response.status res < 400
  /\ (Response.ok res = true \/ Response.status res = 304).
Proof.
  intros H. apply fetchWithLog_Return_inv in H as [Hf Hc].
  split; [exact Hf|]. unfold check_response in Hc.
  destruct (400 <=? Response.status res) eqn:E1; [discriminate|].
  apply Z.leb_gt in E1. split; [exact E1|].
  destruct (Response.ok res); [now left|]. cbn [negb andb] in Hc.
  destruct (Response.status res =? 304) eqn:E3; [|discriminate].
  right. now apply Z.eqb_eq.
Qed.

(** X8. What [fetch] rejects with is what [fetchWithLog] throws, with one
    exception: on [null] and [undefined] the [catch] block reads [.name]
    of the caught value and a [TypeError] is thrown in its place. *)
Theorem fetchWithLog_rejection_outcome url opts reason :
  fetch url (default defaultRequestInit opts) = Rejects reason ->
  snd (fetchWithLog fetch url opts)
  = Throw (match reason with
           | VNull | VUndefined => TTypeError
           | _ => TValue reason
           end).
Proof.
  intros Hf. unfold fetchWithLog. rewrite Hf. unfold catch_block.
  destruct reason as [| |b|n|s|fields]; try reflexivity.
  cbn [name_in]. destruct (fields !! "name") as [n|]; [|reflexivity].
  now destruct (String.eqb n "AbortError" || digest_is_abort (TValue (VObj fields))).
Qed.

(** X9. A call writes at most one line to the console, and none when it
    returns; a [fetch fail] line carries the very value that is thrown. *)
Theorem fetchWithLog_log_lines url opts :
  match snd (fetchWithLog fetch url opts) with
  | Return _ => log_lines (fst (fetchWithLog fetch url opts)) = []
  | Throw err =>
      log_lines (fst (fetchWithLog fetch url opts)) = []
      \/ log_lines (fst (fetchWithLog fetch url opts)) = [EvLogAbort url]
      \/ log_lines (fst (fetchWithLog fetch url opts)) = [EvLogFail url VUndefined err]
  end.
Proof.
  assert (Hc : forall e,
             log_lines (fst (catch_block url e)) = []
             \/ log_lines (fst (catch_block url e)) = [EvLogAbort url]
             \/ log_lines (fst (catch_block url e))
                = [EvLogFail url VUndefined (snd (catch_block url e))]).
  { intros e. unfold catch_block. destruct (name_in e) as [n|].
    - destruct (String.eqb n "AbortError" || digest_is_abort e); cbn; auto.
    - destruct e as [e|v|]; cbn; auto. destruct v; cbn; auto. }
  unfold fetchWithLog.
  destruct (fetch url (default defaultRequestInit opts)) as [res|reason].
  - destruct (check_response res) as [r|err]; [reflexivity|].
    specialize (Hc err). destruct (catch_block url err) as [logs err']. exact Hc.
  - specialize (Hc (TValue reason)).
    destruct (catch_block url (TValue reason)) as [logs err']. exact Hc.
Qed.

(** X10. When [fetch] rejects with an object, the abort line is written
    exactly when the object has a [name] and either that name or its
    [digest] is [AbortError]; a digest alone, without any name, does not
    make it an abort. *)
Theorem fetchWithLog_abort_line url opts (fields : gmap string string) :
  fetch url (default defaultRequestInit opts) = Rejects (VObj fields) ->
  log_lines (fst (fetchWithLog fetch url opts)) = [EvLogAbort url]
  <-> exists n, fields !! "name" = Some n
                /\ (n = "AbortError"%string \/ fields !! "digest" = Some "AbortError"%string).
Proof.
  intros Hf. unfold fetchWithLog. rewrite Hf. unfold catch_block. cbn [name_in].
  destruct (fields !! "name") as [n|] eqn:En.
  - cbn [digest_is_abort].
    assert (Hd : match fields !! "digest" with
                 | Some d0 => String.eqb d0 "AbortError"
                 | None => false
                 end = true <-> fields !! "digest" = Some "AbortError"%string).
    { destruct (fields !! "digest") as [d0|].
      - rewrite String.eqb_eq. split; congruence.
      - split; discriminate. }
    destruct (String.eqb n "AbortError") eqn:E1; cbn [orb].
    + apply String.eqb_eq in E1. split; [|reflexivity].
      intros _. exists n. split; [reflexivity|now left].
    + apply String.eqb_neq in E1.
      destruct (match fields !! "digest" with
                | Some d0 => String.eqb d0 "AbortError"
                | None => false
                end) eqn:E2.
      * split; [|reflexivity]. intros _. exists n. split; [reflexivity|].
        right. now apply Hd.
      * split; [discriminate|]. intros (n' & [= <-] & [H|H]); [contradiction|].
        apply Hd in H. discriminate.
  - split; [discriminate|]. intros (n & H & _). discriminate.
Qed.

End FetchFurther.

(** * Properties of the common build *)

(** [startsWith] against the text it stands for. *)
Lemma startsWith_app s p :
  startsWith s p = true <-> s = (p ++ slice_from (String.length p) s)%string.
Proof.
  unfold startsWith. revert s. induction p as [|a p IH]; intros s.
  - cbn. destruct s; split; reflexivity || auto.
  - destruct s as [|b s]; cbn.
    + split; discriminate.
    + destruct (ascii_dec a b) as [->|Hab].
      * split.
        -- intros H. apply IH in H.
           change (String b s = String b (p ++ slice_from (String.length p) s)).
           f_equal. exact H.
        -- change (String b s = String b (p ++ slice_from (String.length p) s) ->
                   String.prefix p s = true).
           intros [= H]. now apply IH.
      * split; [discriminate|]. intros [= H _]. congruence.
Qed.

Lemma slice_from_app p t : slice_from (String.length p) (p ++ t) = t.
Proof. induction p as [|a p IH]; [reflexivity|exact IH]. Qed.

Lemma string_length_app s t :
  String.length (s ++ t) = (String.length s + String.length t)%nat.
Proof.
  induction s as [|a s IH]; [reflexivity|].
  change (S (String.length (s ++ t)) = S (String.length s + String.length t)).
  now rewrite IH.
Qed.

Lemma substring_app_l s t : String.substring 0 (String.length s) (s ++ t) = s.
Proof.
  induction s as [|a s IH]; [now destruct t|].
  change (String a (String.substring 0 (String.length s) (s ++ t)) = String a s).
  now rewrite IH.
Qed.

(** No line carries two of the three markers. *)
Lemma title_not_description line :
  isTitleLine line = true -> isDescriptionLine line = false.
Proof.
  unfold isTitleLine, isDescriptionLine. intros H.
  destruct (startsWith line MAGIC_COMMAND_DESCRIPTION) eqn:E; [|reflexivity].
  apply startsWith_app in H. apply startsWith_app in E.
  rewrite H in E at 1. cbv in E. discriminate.
Qed.

Lemma domainset_not_ip r :
  startsWith r "domainset/" = true ->
  startsWith r "ip/" = false /\ startsWith r "non_ip/" = false.
Proof.
  intros H. apply startsWith_app in H.
  split.
  - destruct (startsWith r "ip/") eqn:E; [|reflexivity].
    apply startsWith_app in E. rewrite H in E at 1. cbv in E. discriminate.
  - destruct (startsWith r "non_ip/") eqn:E; [|reflexivity].
    apply startsWith_app in E. rewrite H in E at 1. cbv in E. discriminate.
Qed.

Lemma last_cons {A} (x : A) l d : List.last (x :: l) d = List.last l x.
Proof.
  revert x d. induction l as [|y l IH]; intros x d; [reflexivity|].
  change (List.last (x :: y :: l) d) with (List.last (y :: l) d).
  now rewrite (IH y d), (IH y x).
Qed.

Section BuildProperties.

Context (String_trim : string -> string)
        (processLine : string -> option string)
        (path_extname : string -> string)
        (path_sep : string)
        (path_resolve : string -> string -> string)
        (picocolors_red : string -> string)
        (domainDeduper : list string -> list string)
        (SHARED_DESCRIPTION : list string)
        (sourceDir outputSurgeDir outputClashDir : string)
        (new_Date : Z).

(** The loop gives up exactly on a skip line. *)
Lemma readLines_None input : forall title descriptions lines,
  readLines String_trim processLine input title descriptions lines = None
  <-> Exists (fun line => isSkipLine line = true) input.
Proof.
  induction input as [|line rest IH]; intros t ds ls; cbn [readLines].
  - split; [discriminate|]. intros H. inversion H.
  - rewrite Exists_cons. fold (isSkipLine line).
    destruct (isSkipLine line) eqn:E; [tauto|].
    assert (Hr : forall t' ds' ls',
               readLines String_trim processLine rest t' ds' ls' = None
               <-> false = true
                   \/ Exists (fun line => isSkipLine line = true) rest).
    { intros. rewrite IH. split; [tauto|]. intros [?|?]; [discriminate|assumption]. }
    destruct (startsWith line MAGIC_COMMAND_TITLE); [apply Hr|].
    destruct (startsWith line MAGIC_COMMAND_DESCRIPTION); [apply Hr|].
    destruct (processedLine processLine line); apply Hr.
Qed.

(** What the loop has in its three variables when the lines are read. *)
Lemma readLines_Some input : forall title descriptions lines res,
  readLines String_trim processLine input title descriptions lines = Some res ->
  FileContent.title res
  = List.last
      (map (fun line => String_trim (slice_from (String.length MAGIC_COMMAND_TITLE) line))
         (List.filter isTitleLine input))
      title
  /\ FileContent.descriptions res
     = descriptions
       ++ map (fun line =>
                 String_trim (slice_from (String.length MAGIC_COMMAND_DESCRIPTION) line))
            (List.filter isDescriptionLine input)
  /\ FileContent.lines res
     = lines
       ++ omap (processedLine processLine)
            (List.filter (fun line => negb (isTitleLine line)
                                      && negb (isDescriptionLine line)) input).
Proof.
  induction input as [|line rest IH]; intros t ds ls res; cbn [readLines].
  - intros [= <-]. cbn. now rewrite !app_nil_r.
  - destruct (startsWith line MAGIC_COMMAND_SKIP); [discriminate|].
    cbn [List.filter]. fold (isTitleLine line). fold (isDescriptionLine line).
    destruct (isTitleLine line) eqn:Et.
    + rewrite (title_not_description line Et). cbn [negb andb map].
      intros H. apply IH in H as (H1 & H2 & H3).
      rewrite last_cons. auto.
    + destruct (isDescriptionLine line) eqn:Ed; cbn [negb andb map].
      * intros H. apply IH in H as (H1 & H2 & H3).
        rewrite <- app_assoc in H2. auto.
      * cbn [omap list_omap]. destruct (processedLine processLine line) as [l|];
          intros H; apply IH in H as (H1 & H2 & H3).
        -- rewrite <- app_assoc in H3. auto.
        -- auto.
Qed.

(** X11. [processFile] returns [null] exactly when one of the lines read
    starts with the skip marker, wherever it stands and whatever else the
    file holds; a reader that throws does not make the result [null]. *)
Theorem processFile_null_iff sourcePath file :
  snd (processFile String_trim processLine sourcePath file) = None
  <-> Exists (fun line => isSkipLine line = true) (yielded file).
Proof.
  unfold processFile. rewrite <- (readLines_None (yielded file) "" [] []).
  destruct (readLines String_trim processLine (yielded file) "" [] []);
    cbn; split; congruence.
Qed.

(** X12. In the triple that [processFile] returns, also after a throw of
    the reader: the title is the trimmed rest of the last title line, and
    empty without one; the descriptions are the trimmed rests of the
    description lines, in order; the lines are what [processLine] makes of
    the other lines, in order, [null] and empty results dropped. *)
Theorem processFile_content sourcePath file res :
  snd (processFile String_trim processLine sourcePath file) = Some res ->
  FileContent.title res
  = List.last
      (map (fun line => String_trim (slice_from (String.length MAGIC_COMMAND_TITLE) line))
         (List.filter isTitleLine (yielded file)))
      EmptyString
  /\ FileContent.descriptions res
     = map (fun line =>
              String_trim (slice_from (String.length MAGIC_COMMAND_DESCRIPTION) line))
         (List.filter isDescriptionLine (yielded file))
  /\ FileContent.lines res
     = omap (processedLine processLine)
         (List.filter (fun line => negb (isTitleLine line)
                                   && negb (isDescriptionLine line)) (yielded file)).
Proof.
  unfold processFile.
  destruct (readLines String_trim processLine (yielded file) "" [] []) as [r|] eqn:E;
    [|discriminate].
  cbn [snd]. intros [= <-]. exact (readLines_Some _ _ _ _ _ E).
Qed.


(** X14. Either transform calls [createRuleset] unless a line read starts
    with the skip marker: a file with the marker produces no output, and a
    file without it produces one, also when the reader threw part way. *)
Theorem transform_skips_iff sourcePath relativePath file :
  (snd (transformDomainset String_trim processLine path_extname path_resolve
          domainDeduper SHARED_DESCRIPTION outputSurgeDir outputClashDir new_Date
          sourcePath relativePath file) = None
   <-> Exists (fun line => isSkipLine line = true) (yielded file))
  /\ (snd (transformRuleset String_trim processLine path_extname path_resolve
             SHARED_DESCRIPTION outputSurgeDir outputClashDir new_Date
             sourcePath relativePath file) = None
      <-> Exists (fun line => isSkipLine line = true) (yielded file)).
Proof.
  rewrite <- (processFile_null_iff sourcePath file).
  unfold transformDomainset, transformRuleset.
  destruct (processFile String_trim processLine sourcePath file) as [log [res|]];
    cbn [snd]; split; split; congruence.
Qed.

(** X15. The description handed to [createRuleset] is the shared
    description alone when the file has no description line, and otherwise
    the shared description, an empty line, and the file's descriptions in
    order. *)
Theorem transform_description sourcePath relativePath file call :
  snd (transformDomainset String_trim processLine path_extname path_resolve
         domainDeduper SHARED_DESCRIPTION outputSurgeDir outputClashDir new_Date
         sourcePath relativePath file) = Some call
  \/ snd (transformRuleset String_trim processLine path_extname path_resolve
            SHARED_DESCRIPTION outputSurgeDir outputClashDir new_Date
            sourcePath relativePath file) = Some call ->
  CreateRuleset.description call
  = SHARED_DESCRIPTION
    ++ match List.filter isDescriptionLine (yielded file) with
       | [] => []
       | ds =>
           EmptyString
           :: map (fun line =>
                     String_trim
                       (slice_from (String.length MAGIC_COMMAND_DESCRIPTION) line)) ds
       end.
Proof.
  pose proof (processFile_content sourcePath file) as Hc.
  unfold transformDomainset, transformRuleset.
  destruct (processFile String_trim processLine sourcePath file) as [log [res|]];
    cbn [snd] in *; [|intros [H|H]; discriminate].
  destruct (Hc res eq_refl) as (_ & Hd & _).
  assert (E : describe SHARED_DESCRIPTION (FileContent.descriptions res)
              = SHARED_DESCRIPTION
                ++ match List.filter isDescriptionLine (yielded file) with
                   | [] => []
                   | ds =>
                       EmptyString
                       :: map (fun line =>
                                 String_trim
                                   (slice_from (String.length MAGIC_COMMAND_DESCRIPTION)
                                      line)) ds
                   end).
  { unfold describe. rewrite Hd.
    now destruct (List.filter isDescriptionLine (yielded file)). }
  intros [[= <-]|[= <-]]; exact E.
Qed.

(** X16. For a source file whose name ends in its extension, and has one,
    either transform names the Clash file by replacing the extension with
    [.txt]. *)
Theorem transform_clashPath sourcePath stem ext file call :
  path_extname (stem ++ ext) = ext ->
  ext <> EmptyString ->
  snd (transformDomainset String_trim processLine path_extname path_resolve
         domainDeduper SHARED_DESCRIPTION outputSurgeDir outputClashDir new_Date
         sourcePath (stem ++ ext) file) = Some call
  \/ snd (transformRuleset String_trim processLine path_extname path_resolve
            SHARED_DESCRIPTION outputSurgeDir outputClashDir new_Date
            sourcePath (stem ++ ext) file) = Some call ->
  CreateRuleset.clashPath call = path_resolve outputClashDir (stem ++ ".txt").
Proof.
  intros He Hne.
  assert (E : clashFile path_extname (stem ++ ext) = (stem ++ ".txt")%string).
  { unfold clashFile, slice_to_minus. rewrite He.
    destruct (String.length ext) as [|n] eqn:El.
    - destruct ext; [contradiction|discriminate].
    - rewrite <- El, string_length_app.
      replace (String.length stem + String.length ext - String.length ext)%nat
        with (String.length stem) by lia.
      now rewrite substring_app_l. }
  unfold transformDomainset, transformRuleset.
  destruct (processFile String_trim processLine sourcePath file) as [log [res|]];
    cbn [snd]; [|intros [H|H]; discriminate].
  intros [[= <-]|[= <-]]; cbn [CreateRuleset.clashPath]; now rewrite E.
Qed.

(** X17. For a source file without extension the Clash file is [.txt]
    in the output directory: [slice(0, -0)] keeps nothing of the path. *)
Theorem transform_clashPath_no_extension sourcePath relativePath file call :
  path_extname relativePath = EmptyString ->
  snd (transformDomainset String_trim processLine path_extname path_resolve
         domainDeduper SHARED_DESCRIPTION outputSurgeDir outputClashDir new_Date
         sourcePath relativePath file) = Some call
  \/ snd (transformRuleset String_trim processLine path_extname path_resolve
            SHARED_DESCRIPTION outputSurgeDir outputClashDir new_Date
            sourcePath relativePath file) = Some call ->
  CreateRuleset.clashPath call = path_resolve outputClashDir ".txt".
Proof.
  intros He.
  assert (E : clashFile path_extname relativePath = ".txt"%string)
    by (unfold clashFile; now rewrite He).
  unfold transformDomainset, transformRuleset.
  destruct (processFile String_trim processLine sourcePath file) as [log [res|]];
    cbn [snd]; [|intros [H|H]; discriminate].
  intros [[= <-]|[= <-]]; cbn [CreateRuleset.clashPath]; now rewrite E.
Qed.

(** X18. On one file and one path the two transforms make the same call,
    the type and the content apart: a domainset gets the lines through
    [domainDeduper], a ruleset gets them as they are. *)
Theorem transform_domainset_vs_ruleset sourcePath relativePath file rs :
  snd (transformRuleset String_trim processLine path_extname path_resolve
         SHARED_DESCRIPTION outputSurgeDir outputClashDir new_Date
         sourcePath relativePath file) = Some rs ->
  snd (transformDomainset String_trim processLine path_extname path_resolve
         domainDeduper SHARED_DESCRIPTION outputSurgeDir outputClashDir new_Date
         sourcePath relativePath file)
  = Some {| CreateRuleset.title := CreateRuleset.title rs;
            CreateRuleset.description := CreateRuleset.description rs;
            CreateRuleset.date := CreateRuleset.date rs;
            CreateRuleset.content := domainDeduper (CreateRuleset.content rs);
            CreateRuleset.type := "domainset";
            CreateRuleset.surgePath := CreateRuleset.surgePath rs;
            CreateRuleset.clashPath := CreateRuleset.clashPath rs |}
  /\ CreateRuleset.type rs = "ruleset"%string
  /\ CreateRuleset.content rs
     = omap (processedLine processLine)
         (List.filter (fun line => negb (isTitleLine line)
                                   && negb (isDescriptionLine line)) (yielded file)).
Proof.
  pose proof (processFile_content sourcePath file) as Hc.
  unfold transformDomainset, transformRuleset.
  destruct (processFile String_trim processLine sourcePath file) as [log [res|]];
    cbn [snd] in *; [|discriminate].
  destruct (Hc res eq_refl) as (_ & _ & Hl).
  intros [= <-]. cbn. auto.
Qed.

(** The promises and the console lines of the loop, by path. *)
Lemma crawlLoop_tasks paths : forall promises log t,
  In t (fst (crawlLoop path_extname path_sep picocolors_red sourceDir paths promises log))
  <-> In t promises
      \/ exists r, In r paths
           /\ path_extname r <> ".js"%string /\ path_extname r <> ".ts"%string
           /\ ((startsWith r "domainset/" = true
                /\ t = TransformDomainset (sourceDir ++ path_sep ++ r) r)
               \/ ((startsWith r "ip/" = true \/ startsWith r "non_ip/" = true)
                   /\ t = TransformRuleset (sourceDir ++ path_sep ++ r) r)).
Proof.
  induction paths as [|p rest IH]; intros ps log t; cbn [crawlLoop].
  - cbn. split; [auto|]. intros [H|(r & [] & _)]. exact H.
  - destruct (String.eqb (path_extname p) ".js" || String.eqb (path_extname p) ".ts")
      eqn:E.
    + apply orb_true_iff in E. rewrite !String.eqb_eq in E. rewrite IH. split.
      * intros [H|(r & Hr & H)]; [now left|]. right. exists r. split; [now right|exact H].
      * intros [H|(r & [<-|Hr] & H1 & H2 & H)]; [now left| |right; exists r; auto].
        exfalso. destruct E; contradiction.
    + apply orb_false_iff in E. rewrite !String.eqb_neq in E. destruct E as [E1 E2].
      destruct (startsWith p "domainset/") eqn:Ed.
      * destruct (domainset_not_ip p Ed) as [Hi Hn].
        rewrite IH, in_app_iff. cbn [In]. split.
        -- intros [[H|[<-|[]]]|(r & Hr & H)]; [now left| |].
           ++ right. exists p. split; [now left|]. auto.
           ++ right. exists r. split; [now right|exact H].
        -- intros [H|(r & [<-|Hr] & H1 & H2 & H)]; [now left; left| |right; exists r; auto].
           destruct H as [[_ ->]|[[H|H] _]]; [left; right; now left| |]; congruence.
      * destruct (startsWith p "ip/" || startsWith p "non_ip/") eqn:Ei.
        -- rewrite IH, in_app_iff. cbn [In]. apply orb_true_iff in Ei. split.
           ++ intros [[H|[<-|[]]]|(r & Hr & H)]; [now left| |].
              ** right. exists p. split; [now left|]. auto.
              ** right. exists r. split; [now right|exact H].
           ++ intros [H|(r & [<-|Hr] & H1 & H2 & H)];
                [now left; left| |right; exists r; auto].
              destruct H as [[H _]|[_ ->]]; [congruence|left; right; now left].
        -- rewrite IH. apply orb_false_iff in Ei as [Ei En]. split.
           ++ intros [H|(r & Hr & H)]; [now left|]. right. exists r.
              split; [now right|exact H].
           ++ intros [H|(r & [<-|Hr] & H1 & H2 & H)]; [now left| |right; exists r; auto].
              destruct H as [[H _]|[[H|H] _]]; congruence.
Qed.

(** X19. [buildCommon] starts a domainset transform for exactly the
    crawled paths under [domainset/] and a ruleset transform for exactly
    those under [ip/] or [non_ip/], each on the path joined to the source
    directory; a path whose extension is [.js] or [.ts] starts none. *)
Theorem buildCommon_tasks paths t :
  In t (fst (buildCommon path_extname path_sep picocolors_red sourceDir paths))
  <-> exists r, In r paths
        /\ path_extname r <> ".js"%string /\ path_extname r <> ".ts"%string
        /\ ((startsWith r "domainset/" = true
             /\ t = TransformDomainset (sourceDir ++ path_sep ++ r) r)
            \/ ((startsWith r "ip/" = true \/ startsWith r "non_ip/" = true)
                /\ t = TransformRuleset (sourceDir ++ path_sep ++ r) r)).
Proof.
  unfold buildCommon. rewrite crawlLoop_tasks. cbn [In]. tauto.
Qed.

Lemma crawlLoop_count paths : forall promises log,
  (length (fst (crawlLoop path_extname path_sep picocolors_red sourceDir paths promises log))
   + length (snd (crawlLoop path_extname path_sep picocolors_red sourceDir paths
                    promises log))
   + length (List.filter
               (fun r => String.eqb (path_extname r) ".js"
                         || String.eqb (path_extname r) ".ts") paths)
   = length promises + length log + length paths)%nat.
Proof.
  induction paths as [|p rest IH]; intros ps log; cbn [crawlLoop List.filter].
  - cbn. lia.
  - destruct (String.eqb (path_extname p) ".js" || String.eqb (path_extname p) ".ts").
    + specialize (IH ps log). cbn [length]. lia.
    + destruct (startsWith p "domainset/");
        [|destruct (startsWith p "ip/" || startsWith p "non_ip/")];
        match goal with
        | |- context [crawlLoop _ _ _ _ rest ?ps' ?log'] =>
            specialize (IH ps' log'); rewrite length_app in IH; cbn [length] in *; lia
        end.
Qed.

(** X20. Every crawled path is accounted for once: it starts one
    transform, or is reported as unknown on the console, or is a [.js] or
    [.ts] file and is passed over. *)
Theorem buildCommon_accounts paths :
  (length (fst (buildCommon path_extname path_sep picocolors_red sourceDir paths))
   + length (snd (buildCommon path_extname path_sep picocolors_red sourceDir paths))
   + length (List.filter
               (fun r => String.eqb (path_extname r) ".js"
                         || String.eqb (path_extname r) ".ts") paths)
   = length paths)%nat.
Proof.
  unfold buildCommon. rewrite crawlLoop_count. cbn. lia.
Qed.

End BuildProperties.

(** ** Instances of the further properties *)

Lemma retry_delay_capped_witness : 2000 <= maxTimeout_of (retryOptions_of Sample.get).
Proof.
  exact (retry_delay_capped 0 Sample.noDate Sample.noNumber
           (Sample.retryError 503 (Some "2")) {| counter := 1 |} Sample.get 2000
           (or_introl eq_refl) eq_refl).
Defined.

Lemma retry_delay_nonneg_witness : 0 <= 30000.
Proof.
  apply (retry_delay_nonneg 0 Sample.noDate Sample.noNumber
           (Sample.retryError 503 None) {| counter := 3 |} (interceptorOpts "GET" None)).
  - cbn. lia.
  - cbn. lia.
  - cbn. lia.
  - right. unfold exact_backoff. cbn. lia.
  - reflexivity.
Defined.

Lemma retry_delay_monotone_witness : 10000 <= 20000.
Proof.
  apply (retry_delay_monotone 0 Sample.noDate Sample.noNumber 4000
           (Sample.retryError 503 None) (Sample.retryError 503 None)
           (interceptorOpts "GET" None) {| counter := 1 |} {| counter := 2 |}).
  - cbn. lia.
  - cbn. lia.
  - cbn. lia.
  - unfold exact_backoff. cbn. lia.
  - unfold exact_backoff. cbn. lia.
  - reflexivity.
  - reflexivity.
  - reflexivity.
  - reflexivity.
Defined.

Lemma fetchWithLog_options_witness :
  fetchWithLog SampleFetch.byAgent Sample.listUrl (Some SampleFetch.bare)
  = ([EvFetch Sample.listUrl SampleFetch.bare], Return (Sample.response 200 "OK")).
Proof.
  destruct (fetchWithLog_options SampleFetch.byAgent Sample.listUrl)
    as (_ & _ & _ & _ & _ & H & _).
  apply H; reflexivity.
Defined.

Lemma retry_decision_ignores_headers_witness :
  exists d, retry 1000 (fun _ => Fin 6000) Sample.noNumber
              (Sample.retryError 503 (Some "2")) {| counter := 1 |} Sample.get
            = CbNullAfter d.
Proof.
  apply (proj1 (retry_decision_ignores_headers 0 Sample.noDate Sample.noNumber
                  1000 (fun _ => Fin 6000) Sample.noNumber
                  (Sample.retryError 503 None) (Sample.retryError 503 (Some "2"))
                  {| counter := 1 |} Sample.get eq_refl eq_refl eq_refl eq_refl)).
  exists 500. reflexivity.
Defined.

Lemma retry_status_must_be_number_witness :
  retry 0 Sample.noDate Sample.noNumber SampleBuild.stringStatusError
    {| counter := 1 |} Sample.get
  = CbNullAfter 500.
Proof.
  apply (proj2 (retry_status_must_be_number 0 Sample.noDate Sample.noNumber
                  SampleBuild.stringStatusError {| counter := 1 |} Sample.get
                  (VStr "404") 500 eq_refl
                  (fun n (H : VStr "404" = VNum n) =>
                     eq_ind (VStr "404")
                       (fun v => match v with VStr _ => True | _ => False end) I _ H))).
  reflexivity.
Defined.

Lemma fetchWithLog_returns_success_only_witness :
  Response.status (Sample.response 304 "Not Modified") < 400
  /\ (Response.ok (Sample.response 304 "Not Modified") = true
      \/ Response.status (Sample.response 304 "Not Modified") = 304).
Proof.
  exact (proj2 (fetchWithLog_returns_success_only
                  (fun _ _ => Resolves (Sample.response 304 "Not Modified"))
                  Sample.listUrl None (Sample.response 304 "Not Modified") eq_refl)).
Defined.

Lemma fetchWithLog_rejection_outcome_witness :
  snd (fetchWithLog (fun _ _ => Rejects VNull) Sample.listUrl None) = Throw TTypeError.
Proof.
  exact (fetchWithLog_rejection_outcome (fun _ _ => Rejects VNull)
           Sample.listUrl None VNull eq_refl).
Defined.

Lemma fetchWithLog_abort_line_witness :
  log_lines (fst (fetchWithLog
                    (fun _ _ => Rejects (VObj {[ "name" := "Error"; "digest" := "AbortError" ]}))
                    Sample.listUrl None))
  = [EvLogAbort Sample.listUrl].
Proof.
  apply (proj2 (fetchWithLog_abort_line
                  (fun _ _ => Rejects (VObj {[ "name" := "Error"; "digest" := "AbortError" ]}))
                  Sample.listUrl None _ eq_refl)).
  exists "Error"%string. split; [reflexivity|right; reflexivity].
Defined.

Lemma processFile_content_witness :
  FileContent.lines (FileContent.mk "CDN" ["Static hosts"%string]
                       ["DOMAIN-SUFFIX,example.com"%string])
  = omap (processedLine SampleBuild.processLine)
      (List.filter (fun line => negb (isTitleLine line) && negb (isDescriptionLine line))
         (yielded SampleBuild.cdn)).
Proof.
  exact (proj2 (proj2 (processFile_content SampleBuild.trim SampleBuild.processLine
                         "/Source/non_ip/cdn.conf" SampleBuild.cdn
                         (FileContent.mk "CDN" ["Static hosts"%string]
                            ["DOMAIN-SUFFIX,example.com"%string])
                         eq_refl))).
Defined.

Lemma transform_description_witness :
  CreateRuleset.description SampleBuild.cdnRuleset
  = ["License: AGPL 3.0"; ""; "Static hosts"]%string.
Proof.
  exact (transform_description SampleBuild.trim SampleBuild.processLine
           SampleBuild.extname SampleBuild.resolve SampleBuild.dedupe SampleBuild.shared
           "/List" "/Clash" 0 "/Source/non_ip/cdn.conf" "non_ip/cdn.conf" SampleBuild.cdn
           SampleBuild.cdnRuleset (or_intror eq_refl)).
Defined.

Lemma transform_clashPath_witness :
  CreateRuleset.clashPath SampleBuild.cdnRuleset
  = SampleBuild.resolve "/Clash" "non_ip/cdn.txt".
Proof.
  assert (Hne : ".conf"%string <> EmptyString) by discriminate.
  exact (transform_clashPath SampleBuild.trim SampleBuild.processLine
           SampleBuild.extname SampleBuild.resolve SampleBuild.dedupe SampleBuild.shared
           "/List" "/Clash" 0 "/Source/non_ip/cdn.conf" "non_ip/cdn" ".conf" SampleBuild.cdn
           SampleBuild.cdnRuleset eq_refl Hne (or_intror eq_refl)).
Defined.

Lemma transform_clashPath_no_extension_witness :
  CreateRuleset.clashPath SampleBuild.cdnRulesetNoExtension
  = SampleBuild.resolve "/Clash" ".txt".
Proof.
  exact (transform_clashPath_no_extension SampleBuild.trim SampleBuild.processLine
           (fun _ => EmptyString) SampleBuild.resolve SampleBuild.dedupe SampleBuild.shared
           "/List" "/Clash" 0 "/Source/non_ip/cdn" "non_ip/cdn" SampleBuild.cdn
           SampleBuild.cdnRulesetNoExtension eq_refl (or_intror eq_refl)).
Defined.

Lemma transform_domainset_vs_ruleset_witness :
  CreateRuleset.type SampleBuild.cdnRuleset = "ruleset"%string.
Proof.
  exact (proj1 (proj2 (transform_domainset_vs_ruleset SampleBuild.trim
                         SampleBuild.processLine SampleBuild.extname SampleBuild.resolve
                         SampleBuild.dedupe SampleBuild.shared "/List" "/Clash" 0
                         "/Source/non_ip/cdn.conf" "non_ip/cdn.conf" SampleBuild.cdn
                         SampleBuild.cdnRuleset eq_refl))).
Defined.
